(** * kintone app-management scripts: the deploy waiter and the .env loader

    A shallow embedding of two functions of [scripts/app-management/common]:
    - [waitForDeploy] of [client.mjs], the bounded polling loop around
      [client.app.getDeployStatus];
    - [loadEnv] of [env.mjs], the reader of the dotenv-style credential file.

    JavaScript strings are sequences of UTF-16 code units, objects used as
    dictionaries are finite maps, and the asynchronous calls of the waiter are
    sequenced in a small monad that threads the number of requests the client
    has answered and collects the journal of effects. *)

From Stdlib Require Import ZArith NArith List Lia Bool String Ascii.
From Equations Require Import Equations.
From stdpp Require Import base option list gmap.
Import ListNotations.

Local Open Scope Z_scope.
Set Warnings "-register-all".

(* ===================================================================== *)
(** * JavaScript values *)
(* ===================================================================== *)

(** A string is its sequence of UTF-16 code units. *)
Abbreviation jsstring := (list N).

(** Source literals, written as Rocq strings (one code unit per character). *)
Definition js (s : string) : jsstring :=
  List.map N_of_ascii (list_ascii_of_string s).

(** The values a response, a thrown error or an identifier can be.  An
    object is the list of its own properties. *)
Inductive value : Type :=
| VUndefined
| VNull
| VBool (b : bool)
| VNum (z : Z)
| VStr (s : jsstring)
| VObject (props : list (jsstring * value)).

(** [v === "lit"] against a string literal: true for that very string only. *)
Definition strict_eq_str (v : value) (lit : jsstring) : bool :=
  match v with
  | VStr s => bool_decide (s = lit)
  | _ => false
  end.

(** [a[i]]: reading past the end of an array gives [undefined]. *)
Definition index (a : list value) (i : nat) : value := nth i a VUndefined.

Fixpoint own_property (p : jsstring) (props : list (jsstring * value)) : value :=
  match props with
  | [] => VUndefined
  | (q, v) :: rest => if bool_decide (q = p) then v else own_property p rest
  end.

(** [v?.p] for a property name that no prototype defines (such as [status]):
    [undefined] on [undefined] and [null], the own property on an object,
    [undefined] on the other primitives. *)
Definition opt_get (v : value) (p : jsstring) : value :=
  match v with
  | VObject props => own_property p props
  | _ => VUndefined
  end.

(* ===================================================================== *)
(** * client.mjs: waitForDeploy *)
(* ===================================================================== *)

(** How an awaited promise settles: with a value, or with a thrown reason. *)
Inductive settled (A : Type) : Type :=
| Fulfilled (a : A)
| Rejected (reason : value).
Arguments Fulfilled {A} a.
Arguments Rejected {A} reason.

(** The body of a [getDeployStatus] response, [{ apps: [...] }]: the client
    library declares [apps] as an array, whose entries are read as values. *)
Record response : Type := { apps : list value }.

(** The client is the capability the waiter is handed: what the remote answers
    to a [getDeployStatus({apps})] request given how many requests it has
    answered before. *)
Definition Client : Type := nat -> list value -> settled response.

(** The effects of the waiter, in the order they happen. *)
Inductive event : Type :=
| Request (batch : list value) (answer : settled response)
| Timer (ms : Z).

(** Asynchronous computations: from the number of requests answered so far to
    the settlement, the new number of requests and the journal of effects. *)
Definition Async (A : Type) : Type := nat -> settled A * nat * list event.

Definition ret {A} (a : A) : Async A := fun served => (Fulfilled a, served, []).

Definition bind {A B} (m : Async A) (k : A -> Async B) : Async B :=
  fun served =>
    match m served with
    | (Fulfilled a, served', t) =>
        match k a served' with
        | (r, served'', t') => (r, served'', t ++ t')
        end
    | (Rejected e, served', t) => (Rejected e, served', t)
    end.

Notation "'const' x ':=' 'await' m ;; k" := (bind m (fun x => k))
  (at level 10, x name, m at level 99, k at level 200,
   format "'[v' 'const'  x  ':='  'await'  m  ;; '/' k ']'").
Notation "'do' 'await' m ;; k" := (bind m (fun _ => k))
  (at level 10, m at level 99, k at level 200,
   format "'[v' 'do'  'await'  m  ;; '/' k ']'").

(** [client.app.getDeployStatus({ apps })] *)
Definition getDeployStatus (client : Client) (batch : list value) : Async response :=
  fun served =>
    let answer := client served batch in
    (answer, S served, [Request batch answer]).

(** [new Promise((resolve) => setTimeout(resolve, ms))] *)
Definition sleep (ms : Z) : Async unit :=
  fun served => (Fulfilled tt, served, [Timer ms]).

(** [{ success, status }] *)
Record WaitOutcome : Type := { success : bool; status : value }.

Definition inspect {A} (a : A) : {b : A | a = b} := exist _ a eq_refl.

Section WaitForDeploy.

Variable client : Client.
Variable appId : value.
Variable maxAttempts : Z.
Variable intervalMs : Z.

(** The loop [for (let i = 0; i < maxAttempts; i++) { ... }] from the state
    in which the counter is [i], with the [return] after it.  The bound and
    the interval are integers, as their use (a number of attempts, a number
    of milliseconds) has them, and the counter counts exactly. *)
Equations? poll (i : Z) : Async WaitOutcome by wf (Z.to_nat (maxAttempts - i)) lt :=
poll i with inspect (i <? maxAttempts) := {
  | exist _ true _ =>
      const r := await getDeployStatus client [appId] ;;
      let status := opt_get (index (apps r) 0) (js "status") in
      if strict_eq_str status (js "SUCCESS") then
        ret {| success := true; status := status |}
      else if strict_eq_str status (js "FAIL") || strict_eq_str status (js "CANCEL") then
        ret {| success := false; status := status |}
      else
        do await sleep intervalMs ;;
        poll (i + 1)
  | exist _ false _ =>
      ret {| success := false; status := VStr (js "TIMEOUT") |} }.
Proof. apply Z.ltb_lt in e. lia. Qed.

End WaitForDeploy.

(** [waitForDeploy(client, appId, maxAttempts = 30, intervalMs = 1000)]; an
    omitted argument is [None]. *)
Definition waitForDeploy (client : Client) (appId : value)
    (maxAttempts intervalMs : option Z) : Async WaitOutcome :=
  poll client appId (default 30 maxAttempts) (default 1000 intervalMs) 0.

(* ===================================================================== *)
(** * env.mjs: loadEnv *)
(* ===================================================================== *)

(** The code units [String.prototype.trim] strips: ECMAScript WhiteSpace and
    LineTerminator (TAB, LF, VT, FF, CR, SP, NBSP, U+1680, U+2000..U+200A,
    U+2028, U+2029, U+202F, U+205F, U+3000, U+FEFF). *)
Definition is_whitespace (c : N) : bool :=
  ((9 <=? c) && (c <=? 13) || (c =? 32) || (c =? 160) || (c =? 5760)
   || (8192 <=? c) && (c <=? 8202) || (c =? 8232) || (c =? 8233)
   || (c =? 8239) || (c =? 8287) || (c =? 12288) || (c =? 65279))%N.

Fixpoint trimStart (s : jsstring) : jsstring :=
  match s with
  | c :: rest => if is_whitespace c then trimStart rest else s
  | [] => []
  end.

Definition trimEnd (s : jsstring) : jsstring := rev (trimStart (rev s)).

(** [s.trim()] *)
Definition trim (s : jsstring) : jsstring := trimEnd (trimStart s).

(** [s.startsWith(p)] *)
Fixpoint startsWith (s p : jsstring) : bool :=
  match p, s with
  | [], _ => true
  | d :: p', c :: s' => (c =? d)%N && startsWith s' p'
  | _ :: _, [] => false
  end.

(** [s.split(sep)] for a separator of one code unit, as both calls of
    [loadEnv] have it. *)
Fixpoint split (sep : N) (s : jsstring) : list jsstring :=
  match s with
  | [] => [[]]
  | c :: rest =>
      if (c =? sep)%N then [] :: split sep rest
      else match split sep rest with
           | part :: parts => (c :: part) :: parts
           | [] => [[c]]
           end
  end.

(** [parts.join(sep)] *)
Fixpoint join (sep : jsstring) (parts : list jsstring) : jsstring :=
  match parts with
  | [] => []
  | [part] => part
  | part :: rest => part ++ sep ++ join sep rest
  end.

(** The object [env]: its own string-valued properties. *)
Abbreviation env_object := (gmap jsstring jsstring).

(** [env[k] = v] on an object created by the literal [{}].  The one name that
    does not become an own property is [__proto__]: it is the accessor
    inherited from [Object.prototype], whose setter ignores a string. *)
Definition set_property (env : env_object) (k v : jsstring) : env_object :=
  if bool_decide (k = js "__proto__") then env else <[k := v]> env.

(** The callback of [forEach], as a step from the object before the line to
    the object after it. *)
Definition envLine (env : env_object) (line : jsstring) : env_object :=
  let trimmedLine := trim line in
  if bool_decide (trimmedLine = []) || startsWith trimmedLine (js "#") then env
  else
    match split (N_of_ascii "=") trimmedLine with
    | key :: valueParts =>
        if negb (bool_decide (key = [])) && (0 <? length valueParts)%nat then
          set_property env (trim key) (trim (join (js "=") valueParts))
        else env
    | [] => env
    end.

(** What [loadEnv] leaves behind: the object it returns, or the exit of the
    process with the lines it wrote to the error stream. *)
Inductive loaded : Type :=
| Returned (env : env_object)
| Exited (code : Z) (stderr : list string).

Section LoadEnv.

(** [path.resolve] and [fs.readFileSync(_, "utf-8")] ([None] when it throws)
    belong to the platform. *)
Variable resolve : jsstring -> jsstring -> jsstring.
Variable readFileSync : jsstring -> option jsstring.

Definition loadEnv (rootDir : jsstring) : loaded :=
  let envPath := resolve rootDir (js ".env") in
  match readFileSync envPath with
  | Some envContent =>
      Returned (fold_left envLine (split (N_of_ascii "010") envContent) ∅)
  | None =>
      Exited 1 [ "Error: .env file not found";
                 "Please create .env file with:";
                 "  KINTONE_DOMAIN=xxx.cybozu.com";
                 "  KINTONE_USERNAME=your_username";
                 "  KINTONE_PASSWORD=your_password" ]%string
  end.

End LoadEnv.

(* ===================================================================== *)
(** * env.mjs: getRootDir and getKintoneCredentials *)
(* ===================================================================== *)

(** A function that may end the process: it returns, or it calls
    [process.exit] after writing lines to the error stream. *)
Inductive exits (A : Type) : Type :=
| Completes (a : A)
| ProcessExit (code : Z) (stderr : list string).
Arguments Completes {A} a.
Arguments ProcessExit {A} code stderr.

Section GetRootDir.

(** [url.fileURLToPath], [path.dirname], [path.resolve] and [fs.existsSync]
    belong to the platform. *)
Variable fileURLToPath : jsstring -> jsstring.
Variable dirname : jsstring -> jsstring.
Variable resolve : jsstring -> jsstring -> jsstring.
Variable existsSync : jsstring -> bool.

(** The loop [for (let i = 0; i < 10; i++) { ... }] of [getRootDir] from the
    state in which the counter is [i], with the fallback [return] after it. *)
Equations? findRoot (callerDir currentDir : jsstring) (i : Z) : jsstring
  by wf (Z.to_nat (10 - i)) lt :=
findRoot callerDir currentDir i with inspect (i <? 10) := {
  | exist _ true _ =>
      if existsSync (resolve currentDir (js "package.json")) then currentDir
      else findRoot callerDir (resolve currentDir (js "..")) (i + 1)
  | exist _ false _ => resolve callerDir (js "../../../..") }.
Proof. apply Z.ltb_lt in e. lia. Qed.

Definition getRootDir (importMetaUrl : jsstring) : jsstring :=
  let callerDir := dirname (fileURLToPath importMetaUrl) in
  findRoot callerDir callerDir 0.

End GetRootDir.

(** [{ domain, username, password, baseUrl }] *)
Record Credentials : Type :=
  { domain : jsstring; username : jsstring; password : jsstring; baseUrl : jsstring }.

(** [!v] for what reading a property of [env] gives: a string, or [undefined]
    ([None]) when the object has no such property. *)
Definition falsy (v : option jsstring) : bool :=
  match v with
  | None => true
  | Some s => bool_decide (s = [])
  end.

Definition getKintoneCredentials (env : env_object) : exits Credentials :=
  let domain := env !! js "KINTONE_DOMAIN" in
  let username := env !! js "KINTONE_USERNAME" in
  let password := env !! js "KINTONE_PASSWORD" in
  let missing :=
    ProcessExit 1
      [ "Error: Missing environment variables";
        "Please ensure .env has KINTONE_DOMAIN, KINTONE_USERNAME, KINTONE_PASSWORD"
      ]%string in
  if falsy domain || falsy username || falsy password then missing
  else
    match domain, username, password with
    | Some domain, Some username, Some password =>
        Completes {| domain := domain; username := username; password := password;
                     baseUrl := js "https://" ++ domain |}
    | _, _, _ => missing
    end.

(* ===================================================================== *)
(** * client.mjs: createKintoneClient *)
(* ===================================================================== *)

(** The argument of [new KintoneRestAPIClient(...)]:
    [{ baseUrl, auth: { username, password } }]. *)
Record ClientConfig : Type :=
  { config_baseUrl : jsstring; auth_username : jsstring; auth_password : jsstring }.

Section CreateKintoneClient.

Variable fileURLToPath : jsstring -> jsstring.
Variable dirname : jsstring -> jsstring.
Variable resolve : jsstring -> jsstring -> jsstring.
Variable existsSync : jsstring -> bool.
Variable readFileSync : jsstring -> option jsstring.

(** [await import("@kintone/rest-api-client")] and the constructor it
    exports belong to the library: the import may fail, and so may the
    construction. *)
Variable importKintoneRestAPIClient : settled (ClientConfig -> settled Client).

(** The result is the exit of the process, or the settlement of the promise
    with [{ client, credentials }]. *)
Definition createKintoneClient (importMetaUrl : jsstring)
    : exits (settled (Client * Credentials)) :=
  let rootDir := getRootDir fileURLToPath dirname resolve existsSync importMetaUrl in
  match loadEnv resolve readFileSync rootDir with
  | Exited code stderr => ProcessExit code stderr
  | Returned env =>
      match getKintoneCredentials env with
      | ProcessExit code stderr => ProcessExit code stderr
      | Completes credentials =>
          Completes
            match importKintoneRestAPIClient with
            | Rejected e => Rejected e
            | Fulfilled KintoneRestAPIClient =>
                match KintoneRestAPIClient
                        {| config_baseUrl := baseUrl credentials;
                           auth_username := username credentials;
                           auth_password := password credentials |} with
                | Rejected e => Rejected e
                | Fulfilled client => Fulfilled (client, credentials)
                end
            end
      end
  end.

End CreateKintoneClient.

(* ===================================================================== *)
(** * get-deploy-status.mjs: getStatusIcon *)
(* ===================================================================== *)

(** The [switch] on the status; the icons are U+2705, U+23F3, U+274C,
    U+1F6AB (a surrogate pair) and U+2753. *)
Definition getStatusIcon (status : value) : jsstring :=
  if strict_eq_str status (js "SUCCESS") then [9989%N]
  else if strict_eq_str status (js "PROCESSING") then [9203%N]
  else if strict_eq_str status (js "FAIL") then [10060%N]
  else if strict_eq_str status (js "CANCEL") then [55357%N; 57003%N]
  else [10067%N].

(* ===================================================================== *)
(** * deploy-app.mjs: the script around waitForDeploy *)
(* ===================================================================== *)

(** What is handed to [console.log] and [console.error]: a value, or a
    template literal with the values substituted into its text. *)
Inductive piece : Type :=
| Text (s : jsstring)
| Subst (v : value).

Inductive printed : Type :=
| Raw (v : value)
| Template (parts : list piece).

Inductive stream : Type := Stdout | Stderr.

(** The effects of the script, in the order they happen; the effects of the
    waiter are those of its journal. *)
Inductive step : Type :=
| Console (to : stream) (args : list printed)
| DeployApp (apps : list value) (revert : bool) (answer : settled unit)
| Wait (ev : event).

(** How the script ends: [main] returns an outcome, [main] throws and nothing
    catches it, or the process is ended with an exit code. *)
Inductive ended : Type :=
| Resolved (o : WaitOutcome)
| Unhandled (e : value)
| ProcessExited (code : Z).

(** [if (v)] *)
Definition truthy (v : value) : bool :=
  match v with
  | VUndefined | VNull => false
  | VBool b => b
  | VNum z => negb (z =? 0)
  | VStr s => negb (bool_decide (s = []))
  | VObject _ => true
  end.

(** The first argument that is no option: [args.find((arg) => !arg.startsWith("--"))]. *)
Definition findAppId (args : list jsstring) : option jsstring :=
  List.find (fun arg => negb (startsWith arg (js "--"))) args.

(** [args.includes(flag)] *)
Definition includes (args : list jsstring) (flag : jsstring) : bool :=
  existsb (fun arg => bool_decide (arg = flag)) args.

Definition usage : list step :=
  List.map (fun line => Console Stderr [Raw (VStr (js line))])
    [ "Error: App ID is required";
      "";
      "Usage: node scripts/app-management/deploy-app.mjs <appId> [--revert] [--no-wait]";
      "";
      "Examples:";
      "  node scripts/app-management/deploy-app.mjs 123";
      "  node scripts/app-management/deploy-app.mjs 123 --revert";
      "  node scripts/app-management/deploy-app.mjs 123 --no-wait";
      "";
      "Options:";
      "  --revert   Revert pre-live settings to current live settings";
      "  --no-wait  Don't wait for deployment to complete" ]%string.

Section DeployApp.

Variable fileURLToPath : jsstring -> jsstring.
Variable dirname : jsstring -> jsstring.
Variable resolve : jsstring -> jsstring -> jsstring.
Variable existsSync : jsstring -> bool.
Variable readFileSync : jsstring -> option jsstring.
Variable importKintoneRestAPIClient : settled (ClientConfig -> settled Client).
Variable importMetaUrl : jsstring.

(** [client.app.deployApp({ apps, revert })] of the library. *)
Variable deployApp : Client -> list value -> bool -> settled unit.

(** [JSON.stringify(v, null, 2)], and the [TypeError] the engine throws when
    a property of [undefined] or [null] is read. *)
Variable JSON_stringify : value -> value.
Variable TypeError : value -> value.

(** The [catch] block of [main]. *)
Definition failed (error : value) : ended * list step :=
  let first :=
    Console Stderr [Raw (VStr ([10%N; 10060%N] ++ js " Failed to deploy app"))] in
  match error with
  | VUndefined | VNull => (Unhandled (TypeError error), [first])
  | _ =>
      let message := opt_get error (js "message") in
      let errors := opt_get error (js "errors") in
      (ProcessExited 1,
       [first; Console Stderr [Raw message]]
         ++ (if truthy errors
             then [Console Stderr [Raw (VStr (js "Details:")); Raw (JSON_stringify errors)]]
             else []))
  end.

(** [main()], for the parsed arguments, from the number of status requests
    the remote has answered. *)
Definition main (appId : jsstring) (revert noWait : bool) (served : nat)
    : ended * nat * list step :=
  match createKintoneClient fileURLToPath dirname resolve existsSync readFileSync
          importKintoneRestAPIClient importMetaUrl with
  | ProcessExit code stderr =>
      (ProcessExited code, served,
       List.map (fun line => Console Stderr [Raw (VStr (js line))]) stderr)
  | Completes (Rejected e) => (Unhandled e, served, [])
  | Completes (Fulfilled (client, credentials)) =>
      let intro :=
        [ Console Stdout
            [ if revert then
                Template [Text ([10%N; 55357%N; 56580%N]
                                  ++ js " Reverting pre-live settings for App ");
                          Subst (VStr appId); Text (js "...")]
              else
                Template [Text ([10%N; 55357%N; 56580%N] ++ js " Deploying App ");
                          Subst (VStr appId); Text (js "...")] ];
          Console Stdout
            [Template [Text (js "   Domain: "); Subst (VStr (domain credentials))]] ] in
      let apps := [VObject [(js "app", VStr appId)]] in
      match deployApp client apps revert with
      | Rejected error =>
          let '(e, t) := failed error in
          (e, served, intro ++ DeployApp apps revert (Rejected error) :: t)
      | Fulfilled tt =>
          let sent := intro ++ [DeployApp apps revert (Fulfilled tt)] in
          if revert then
            (Resolved {| success := true; status := VStr (js "REVERTED") |}, served,
             sent ++ [Console Stdout
                        [Template [Text ([10%N; 9989%N]
                                           ++ js " Successfully reverted pre-live settings for App ");
                                   Subst (VStr appId)]]])
          else if noWait then
            (Resolved {| success := true; status := VStr (js "PROCESSING") |}, served,
             sent ++ [Console Stdout
                        [Template [Text ([10%N; 9989%N] ++ js " Deployment started for App ");
                                   Subst (VStr appId)]];
                      Console Stdout
                        [Raw (VStr (js "   Use --no-wait flag removed to wait for completion"))]])
          else
            let waiting :=
              sent ++ [Console Stdout
                         [Raw (VStr (js "   Waiting for deployment to complete..."))]] in
            match waitForDeploy client (VStr appId) None None served with
            | (Rejected error, served', t) =>
                let '(e, t') := failed error in
                (e, served', waiting ++ List.map Wait t ++ t')
            | (Fulfilled result, served', t) =>
                if success result then
                  (Resolved result, served',
                   waiting ++ List.map Wait t
                     ++ [Console Stdout
                           [Template [Text ([10%N; 9989%N] ++ js " Successfully deployed App ");
                                      Subst (VStr appId)]];
                         Console Stdout
                           [Template [Text (js "   Status: "); Subst (status result)]]])
                else
                  (ProcessExited 1, served',
                   waiting ++ List.map Wait t
                     ++ [Console Stderr
                           [Template [Text ([10%N; 10060%N] ++ js " Deployment failed for App ");
                                      Subst (VStr appId)]];
                         Console Stderr
                           [Template [Text (js "   Status: "); Subst (status result)]]])
            end
      end
  end.

(** The script from [process.argv]: the arguments are parsed, a missing app
    id ends the process after the usage text, otherwise [main()] runs. *)
Definition deploy_app (argv : list jsstring) (served : nat) : ended * nat * list step :=
  let args := skipn 2 argv in
  let appId := findAppId args in
  let revert := includes args (js "--revert") in
  let noWait := includes args (js "--no-wait") in
  if falsy appId then (ProcessExited 1, served, usage)
  else
    match appId with
    | Some appId => main appId revert noWait served
    | None => (ProcessExited 1, served, usage)
    end.

End DeployApp.

(* ===================================================================== *)
(** * get-apps.mjs: the loader of the stand-alone scripts *)
(* ===================================================================== *)

Module GetApps.

(** The callback of [forEach] in the [loadEnv] of [get-apps.mjs]: the line is
    split as it is, neither trimmed first nor checked for a comment. *)
Definition envLine (env : env_object) (line : jsstring) : env_object :=
  match split (N_of_ascii "=") line with
  | key :: valueParts =>
      if negb (bool_decide (key = [])) && (0 <? length valueParts)%nat then
        set_property env (trim key) (trim (join (js "=") valueParts))
      else env
  | [] => env
  end.

Section LoadEnv.

Variable resolve : jsstring -> jsstring -> jsstring.
Variable readFileSync : jsstring -> option jsstring.

(** [rootDir] is the constant [resolve(__dirname, "..")] of the script. *)
Definition loadEnv (rootDir : jsstring) : loaded :=
  let envPath := resolve rootDir (js ".env") in
  match readFileSync envPath with
  | Some envContent =>
      Returned (fold_left envLine (split (N_of_ascii "010") envContent) ∅)
  | None =>
      Exited 1 [ "Error: .env file not found";
                 "Please create .env file with:";
                 "  KINTONE_DOMAIN=xxx.cybozu.com";
                 "  KINTONE_USERNAME=your_username";
                 "  KINTONE_PASSWORD=your_password" ]%string
  end.

End LoadEnv.

End GetApps.

(* ===================================================================== *)
(** * Vocabulary of the statements *)
(* ===================================================================== *)

(** The status the waiter reads off a response: [apps[0]?.status]. *)
Definition first_status (r : response) : value :=
  opt_get (index (apps r) 0) (js "status").

(** The statuses on which the waiter returns. *)
Definition terminal (v : value) : bool :=
  strict_eq_str v (js "SUCCESS") || strict_eq_str v (js "FAIL")
  || strict_eq_str v (js "CANCEL").

(** An answer after which the waiter keeps polling: a response whose status
    is not terminal. *)
Definition pending (a : settled response) : bool :=
  match a with
  | Fulfilled r => negb (terminal (first_status r))
  | Rejected _ => false
  end.

(** What the waiter makes of an answer that is not [pending]. *)
Definition verdict (a : settled response) : settled WaitOutcome :=
  match a with
  | Fulfilled r =>
      Fulfilled {| success := strict_eq_str (first_status r) (js "SUCCESS");
                   status := first_status r |}
  | Rejected e => Rejected e
  end.

Definition is_request (ev : event) : bool :=
  match ev with Request _ _ => true | Timer _ => false end.

Definition is_timer (ev : event) : bool :=
  match ev with Request _ _ => false | Timer _ => true end.

(** Number of calls to [getDeployStatus] and of suspensions in a journal. *)
Definition requests (t : list event) : nat := length (List.filter is_request t).
Definition suspensions (t : list event) : nat := length (List.filter is_timer t).

(** The journal of [k] iterations that all went on polling, the first of them
    answered as request number [served]. *)
Fixpoint polling (client : Client) (appId : value) (intervalMs : Z)
    (served k : nat) : list event :=
  match k with
  | O => []
  | S k' =>
      Request [appId] (client served [appId]) :: Timer intervalMs
        :: polling client appId intervalMs (S served) k'
  end.

(** The effective attempt budget and interval of a call. *)
Definition budget (maxAttempts : option Z) : Z := default 30 maxAttempts.
Definition interval (intervalMs : option Z) : Z := default 1000 intervalMs.

Definition TIMEOUT : WaitOutcome :=
  {| success := false; status := VStr (js "TIMEOUT") |}.

(** A response reporting one application with the given status. *)
Definition report (s : string) : settled response :=
  Fulfilled {| apps := [VObject [(js "app", VStr (js "42")); (js "status", VStr (js s))]] |}.

(** A remote that answers from a script, then keeps giving one last answer. *)
Definition scripted (answers : list (settled response)) (otherwise : settled response)
    : Client :=
  fun served _ => nth served answers otherwise.

(** A report with further entries after the first. *)
Definition crowded (s : string) (others : list value) : settled response :=
  Fulfilled {| apps := VObject [(js "app", VStr (js "42")); (js "status", VStr (js s))]
                         :: others |}.

(** A small file system: one readable file, [/app/.env], of five lines. *)
Definition sample_resolve (dir file : jsstring) : jsstring := dir ++ js "/" ++ file.

Definition sample_env : jsstring :=
  join [N_of_ascii "010"]
    [js "# kintone"; js " KINTONE_DOMAIN = a=b=c "; js ""; js "PLAIN"; js "  # KEY=x"].

Definition sample_readFileSync (path : jsstring) : option jsstring :=
  if bool_decide (path = js "/app/.env") then Some sample_env else None.

(** What every entry of a loaded object looks like: the key is not empty, is
    trimmed, holds no ['='] and no line feed, does not start with ['#'] and is
    not [__proto__]; the value is trimmed and holds no line feed. *)
Definition tidy_key (k : jsstring) : Prop :=
  k <> [] /\ trim k = k /\ ~ In (N_of_ascii "=") k /\ ~ In (N_of_ascii "010") k
  /\ startsWith k (js "#") = false /\ k <> js "__proto__".

Definition tidy_value (v : jsstring) : Prop :=
  trim v = v /\ ~ In (N_of_ascii "010") v.

(** A file with the three credentials, and the object it loads to. *)
Definition credentials_file : jsstring :=
  join [N_of_ascii "010"]
    [js "KINTONE_DOMAIN=example.cybozu.com"; js "KINTONE_USERNAME = alice ";
     js "# secret"; js "KINTONE_PASSWORD=p=w"; js ""].

Definition credentials_env : env_object :=
  fold_left envLine (split (N_of_ascii "010") credentials_file) ∅.

(** A tree in which [/repo/package.json] is the only file. *)
Definition sample_dirname (p : jsstring) : jsstring :=
  rev (match split (N_of_ascii "/") (rev p) with
       | _ :: parts => join (js "/") parts
       | [] => []
       end).

Definition sample_parent (dir file : jsstring) : jsstring :=
  if bool_decide (file = js "..") then sample_dirname dir else dir ++ js "/" ++ file.

Definition sample_existsSync (p : jsstring) : bool :=
  bool_decide (p = js "/repo/package.json").

(** The directory [k] levels above [dir]: [resolve(dir, "..")], [k] times. *)
Definition ancestor (resolve : jsstring -> jsstring -> jsstring) (k : nat)
    (dir : jsstring) : jsstring :=
  Nat.iter k (fun d => resolve d (js "..")) dir.

(** The journal of the waiter inside the steps of the script. *)
Definition waits (t : list step) : list event :=
  flat_map (fun s => match s with Wait ev => [ev] | _ => [] end) t.

(** The calls to [deployApp] among the steps of the script. *)
Definition deploys (t : list step) : nat :=
  length (List.filter (fun s => match s with DeployApp _ _ _ => true | _ => false end) t).

(** A library whose import and construction succeed, a deployment request
    that is accepted, and a file system for a script under [/repo]. *)
Definition sample_import : settled (ClientConfig -> settled Client) :=
  Fulfilled (fun _ => Fulfilled (scripted [report "PROCESSING"] (report "FAIL"))).

Definition sample_deployApp (client : Client) (apps : list value) (revert : bool)
    : settled unit :=
  Fulfilled tt.

Definition sample_main (appId : jsstring) (revert noWait : bool) (served : nat)
    : ended * nat * list step :=
  main (fun url => url) sample_dirname sample_parent sample_existsSync
    (fun _ => Some credentials_file) sample_import
    (js "/repo/scripts/app-management/deploy/deploy-app.mjs")
    sample_deployApp (fun v => v) (fun v => v) appId revert noWait served.




(** A string of whitespace only. *)
Definition blank (w : jsstring) : Prop := forallb is_whitespace w = true.

(** The text with every line feed turned into carriage return, line feed. *)
Definition crlf (s : jsstring) : jsstring :=
  flat_map (fun c => if (c =? 10)%N then [13%N; 10%N] else [c]) s.

(** The delay asked of the timers of a journal, in milliseconds. *)
Fixpoint delay (t : list event) : Z :=
  match t with
  | [] => 0
  | Timer ms :: rest => ms + delay rest
  | Request _ _ :: rest => delay rest
  end.

(** The client that answers request number [n] with [a] and is [client]
    everywhere else. *)
Definition patch (client : Client) (n : nat) (a : settled response) : Client :=
  fun served batch => if (served =? n)%nat then a else client served batch.

(** Two answers the waiter cannot tell apart: both make it go on, or both
    make it stop with the same verdict. *)
Definition alike (a1 a2 : settled response) : Prop :=
  (pending a1 = true /\ pending a2 = true)
  \/ (pending a1 = false /\ pending a2 = false /\ verdict a1 = verdict a2).

(** Two answers with the same first entry [apps[0]] (or the same error). *)
Definition same_first_entry (a1 a2 : settled response) : Prop :=
  match a1, a2 with
  | Fulfilled r1, Fulfilled r2 => index (apps r1) 0 = index (apps r2) 0
  | Rejected e1, Rejected e2 => e1 = e2
  | _, _ => False
  end.



(* ===================================================================== *)
(** * The polling loop *)
(* ===================================================================== *)

(** A fact about the answers from request [served] on, used for the answers
    from request [S served] on. *)
Ltac later_answers Hall :=
  let j := fresh "j" in
  let Hj := fresh "Hj" in
  intros j Hj;
  match goal with
  | |- context [(S ?s + j)%nat] =>
      replace (S s + j)%nat with (s + S j)%nat by lia
  end;
  apply Hall; lia.

Section PollFacts.

Variable client : Client.
Variable appId : value.
Variable maxAttempts : Z.
Variable intervalMs : Z.

Lemma poll_done (i : Z) (served : nat) :
  maxAttempts <= i ->
  poll client appId maxAttempts intervalMs i served = (Fulfilled TIMEOUT, served, []).
Proof.
  intros Hi. funelim (poll client appId maxAttempts intervalMs i).
  - pose proof (proj1 (Z.ltb_lt _ _) e). lia.
  - reflexivity.
Qed.

Lemma poll_step (i : Z) (served : nat) :
  i < maxAttempts ->
  poll client appId maxAttempts intervalMs i served =
    let a := client served [appId] in
    if pending a then
      match poll client appId maxAttempts intervalMs (i + 1) (S served) with
      | (res, served', t) => (res, served', Request [appId] a :: Timer intervalMs :: t)
      end
    else (verdict a, S served, [Request [appId] a]).
Proof.
  intros Hi. funelim (poll client appId maxAttempts intervalMs i).
  - clear H Heqcall. unfold bind, getDeployStatus, sleep, ret; cbn zeta.
    destruct (client served [appId]) as [r|err]; cbn [pending verdict]; [|reflexivity].
    unfold terminal, first_status.
    set (st := opt_get (index (apps r) 0) (js "status")).
    destruct (strict_eq_str st (js "SUCCESS")); [reflexivity|].
    destruct (strict_eq_str st (js "FAIL")); [reflexivity|].
    destruct (strict_eq_str st (js "CANCEL")); [reflexivity|].
    cbn [orb negb].
    destruct (poll client appId maxAttempts intervalMs (i + 1) (S served))
      as [[res served'] t].
    reflexivity.
  - pose proof (proj1 (Z.ltb_ge _ _) e). lia.
Qed.

(** A budget that runs out: every remaining attempt is answered and asks to
    go on. *)
Lemma poll_exhausts (n : nat) : forall (i : Z) (served : nat),
  Z.to_nat (maxAttempts - i) = n ->
  (forall j, (j < n)%nat -> pending (client (served + j)%nat [appId]) = true) ->
  poll client appId maxAttempts intervalMs i served =
    (Fulfilled TIMEOUT, (served + n)%nat, polling client appId intervalMs served n).
Proof.
  induction n as [|n IH]; intros i served Hn Hall.
  - rewrite poll_done by lia. rewrite Nat.add_0_r. reflexivity.
  - rewrite poll_step by lia. cbn zeta.
    pose proof (Hall O ltac:(lia)) as H0. rewrite Nat.add_0_r in H0. rewrite H0.
    rewrite (IH (i + 1) (S served)).
    + cbn [polling]. do 2 f_equal. lia.
    + lia.
    + later_answers Hall.
Qed.

(** A run that stops at its [k]-th further attempt, the first one whose
    answer is not [pending]. *)
Lemma poll_stops (k : nat) : forall (i : Z) (served : nat),
  (k < Z.to_nat (maxAttempts - i))%nat ->
  (forall j, (j < k)%nat -> pending (client (served + j)%nat [appId]) = true) ->
  pending (client (served + k)%nat [appId]) = false ->
  poll client appId maxAttempts intervalMs i served =
    (verdict (client (served + k)%nat [appId]), S (served + k),
     polling client appId intervalMs served k
       ++ [Request [appId] (client (served + k)%nat [appId])]).
Proof.
  induction k as [|k IH]; intros i served Hk Hall Hstop.
  - rewrite Nat.add_0_r in *. rewrite poll_step by lia. cbn zeta.
    rewrite Hstop. reflexivity.
  - rewrite poll_step by lia. cbn zeta.
    pose proof (Hall O ltac:(lia)) as H0. rewrite Nat.add_0_r in H0. rewrite H0.
    replace (served + S k)%nat with (S served + k)%nat in * by lia.
    rewrite (IH (i + 1) (S served)).
    + reflexivity.
    + lia.
    + later_answers Hall.
    + exact Hstop.
Qed.

End PollFacts.

(** Among the first [n] answers either all are pending or there is a first
    one that is not. *)
Lemma first_stop (f : nat -> bool) (n : nat) :
  (forall j, (j < n)%nat -> f j = true)
  \/ exists k, (k < n)%nat /\ (forall j, (j < k)%nat -> f j = true) /\ f k = false.
Proof.
  induction n as [|n [IH | (k & Hk & Hbefore & Hstop)]].
  - left. intros j Hj. lia.
  - destruct (f n) eqn:Hn.
    + left. intros j Hj. destruct (decide (j = n)) as [->|]; [exact Hn|].
      apply IH. lia.
    + right. exists n. split; [lia|]. split; [|exact Hn].
      intros j Hj. apply IH. exact Hj.
  - right. exists k. split; [lia|]. split; assumption.
Qed.

Lemma requests_polling client appId intervalMs served k :
  requests (polling client appId intervalMs served k) = k.
Proof.
  revert served. induction k as [|k IH]; intros served; [reflexivity|].
  unfold requests in *. cbn. rewrite IH. reflexivity.
Qed.

Lemma suspensions_polling client appId intervalMs served k :
  suspensions (polling client appId intervalMs served k) = k.
Proof.
  revert served. induction k as [|k IH]; intros served; [reflexivity|].
  unfold suspensions in *. cbn. rewrite IH. reflexivity.
Qed.

Lemma requests_app t1 t2 : requests (t1 ++ t2) = (requests t1 + requests t2)%nat.
Proof. unfold requests. rewrite List.filter_app, List.length_app. reflexivity. Qed.

Lemma suspensions_app t1 t2 :
  suspensions (t1 ++ t2) = (suspensions t1 + suspensions t2)%nat.
Proof. unfold suspensions. rewrite List.filter_app, List.length_app. reflexivity. Qed.

Lemma strict_eq_str_true v lit : strict_eq_str v lit = true <-> v = VStr lit.
Proof.
  destruct v; cbn; try (split; [discriminate | intros [=]]).
  rewrite bool_decide_eq_true. split; [intros ->; reflexivity | intros [=]; assumption].
Qed.

Lemma terminal_true v :
  terminal v = true <->
  v = VStr (js "SUCCESS") \/ v = VStr (js "FAIL") \/ v = VStr (js "CANCEL").
Proof.
  unfold terminal. rewrite !orb_true_iff, !strict_eq_str_true. tauto.
Qed.

(* ===================================================================== *)
(** * Every run of the waiter, in closed form *)
(* ===================================================================== *)

(** A run either exhausts its budget on pending answers, or stops at the
    first answer that is not pending. *)
Lemma waitForDeploy_cases client appId maxAttempts intervalMs served :
  let n := Z.to_nat (budget maxAttempts) in
  let ms := interval intervalMs in
  ((forall j, (j < n)%nat -> pending (client (served + j)%nat [appId]) = true)
   /\ waitForDeploy client appId maxAttempts intervalMs served =
        (Fulfilled TIMEOUT, (served + n)%nat, polling client appId ms served n))
  \/ (exists k, (k < n)%nat
        /\ (forall j, (j < k)%nat -> pending (client (served + j)%nat [appId]) = true)
        /\ pending (client (served + k)%nat [appId]) = false
        /\ waitForDeploy client appId maxAttempts intervalMs served =
             (verdict (client (served + k)%nat [appId]), S (served + k),
              polling client appId ms served k
                ++ [Request [appId] (client (served + k)%nat [appId])])).
Proof.
  intros n ms. unfold waitForDeploy. fold (budget maxAttempts) (interval intervalMs).
  destruct (first_stop (fun j => pending (client (served + j)%nat [appId])) n)
    as [Hall | (k & Hk & Hbefore & Hstop)].
  - left. split; [exact Hall|]. apply poll_exhausts; [|exact Hall].
    rewrite Z.sub_0_r. reflexivity.
  - right. exists k. split; [exact Hk|]. split; [exact Hbefore|]. split; [exact Hstop|].
    apply poll_stops; [|exact Hbefore|exact Hstop].
    rewrite Z.sub_0_r. exact Hk.
Qed.

(** A status spelled [TIMEOUT] in a response is not one the waiter returns on. *)
Lemma remote_timeout_pending r :
  first_status r = VStr (js "TIMEOUT") -> pending (Fulfilled r) = true.
Proof. intros H. cbn [pending]. rewrite H. reflexivity. Qed.

Lemma verdict_status a o :
  verdict a = Fulfilled o -> pending a = false ->
  exists r, a = Fulfilled r /\ status o = first_status r
            /\ success o = strict_eq_str (first_status r) (js "SUCCESS")
            /\ terminal (first_status r) = true.
Proof.
  destruct a as [r|e]; cbn; [|discriminate].
  intros [= <-] Hp. exists r. cbn. repeat split.
  apply negb_false_iff. exact Hp.
Qed.

(* ===================================================================== *)
(** * Properties of waitForDeploy *)
(* ===================================================================== *)

(** C1 (timeout boundary).  With a positive budget, if every answer of the
    run carries a non-terminal status ([PROCESSING] or anything unrecognised),
    [waitForDeploy] returns [{success: false, status: "TIMEOUT"}] after
    exactly [maxAttempts] calls to [getDeployStatus].  Conversely an outcome
    whose status is [TIMEOUT] arises only when the budget is exhausted on
    pending answers, the journal then being the polling rounds alone; and a
    response that itself spells its status [TIMEOUT] is pending, so the value
    returned is never one read from the remote. *)
Theorem timeout_boundary client appId maxAttempts intervalMs served :
  (0 < budget maxAttempts ->
   (forall j : nat, Z.of_nat j < budget maxAttempts ->
      pending (client (served + j)%nat [appId]) = true) ->
   exists t,
     waitForDeploy client appId maxAttempts intervalMs served =
       (Fulfilled {| success := false; status := VStr (js "TIMEOUT") |},
        (served + Z.to_nat (budget maxAttempts))%nat, t)
     /\ Z.of_nat (requests t) = budget maxAttempts)
  /\ (forall o served' t,
        waitForDeploy client appId maxAttempts intervalMs served
          = (Fulfilled o, served', t) ->
        status o = VStr (js "TIMEOUT") ->
        (forall j : nat, Z.of_nat j < budget maxAttempts ->
           pending (client (served + j)%nat [appId]) = true)
        /\ requests t = Z.to_nat (budget maxAttempts)
        /\ t = polling client appId (interval intervalMs) served
                 (Z.to_nat (budget maxAttempts)))
  /\ (forall r, first_status r = VStr (js "TIMEOUT") -> pending (Fulfilled r) = true).
Proof.
  destruct (waitForDeploy_cases client appId maxAttempts intervalMs served)
    as [[Hall Hrun] | (k & Hk & Hbefore & Hstop & Hrun)].
  - split; [|split; [|exact remote_timeout_pending]].
    + intros Hpos _. eexists. split; [exact Hrun|].
      rewrite requests_polling. lia.
    + intros o served' t Heq _. rewrite Hrun in Heq. injection Heq as <- <- <-.
      split; [|split; [apply requests_polling | reflexivity]].
      intros j Hj. apply Hall. lia.
  - split; [|split; [|exact remote_timeout_pending]].
    + intros Hpos Hall. rewrite Hall in Hstop by lia. discriminate.
    + intros o served' t Heq Hst. rewrite Hrun in Heq. injection Heq as Hv <- <-.
      destruct (verdict_status _ _ Hv Hstop) as (r & Ha & Hs & _ & Hterm).
      rewrite <- Hs, Hst in Hterm. discriminate.
Qed.

Lemma timeout_boundary_witness :
  exists t,
    waitForDeploy (scripted [] (report "PROCESSING")) (VNum 42) (Some 3) (Some 10) 0%nat =
      (Fulfilled {| success := false; status := VStr (js "TIMEOUT") |}, 3%nat, t)
    /\ Z.of_nat (requests t) = 3.
Proof.
  apply (proj1 (timeout_boundary (scripted [] (report "PROCESSING")) (VNum 42)
                  (Some 3) (Some 10) 0%nat)).
  - reflexivity.
  - intros j _. destruct j; reflexivity.
Defined.

(** C2 (eventual success).  If the first [k] answers report [PROCESSING] and
    answer [k+1] reports [SUCCESS], with [k < maxAttempts], the waiter returns
    [{success: true, status: "SUCCESS"}] after exactly [k+1] calls and exactly
    [k] suspensions; for [k = 0] that is one call and no suspension. *)
Theorem eventual_success client appId maxAttempts intervalMs served (k : nat) :
  Z.of_nat k < budget maxAttempts ->
  (forall j, (j < k)%nat ->
     exists r, client (served + j)%nat [appId] = Fulfilled r
               /\ first_status r = VStr (js "PROCESSING")) ->
  (exists r, client (served + k)%nat [appId] = Fulfilled r
             /\ first_status r = VStr (js "SUCCESS")) ->
  exists t,
    waitForDeploy client appId maxAttempts intervalMs served =
      (Fulfilled {| success := true; status := VStr (js "SUCCESS") |},
       (served + k + 1)%nat, t)
    /\ requests t = (k + 1)%nat
    /\ suspensions t = k.
Proof.
  intros Hk Hproc (r & Hr & Hs).
  unfold waitForDeploy. fold (budget maxAttempts) (interval intervalMs).
  rewrite (poll_stops _ _ _ _ k).
  - rewrite Hr. cbn [verdict]. rewrite Hs. eexists. split.
    + f_equal. f_equal. lia.
    + rewrite requests_app, suspensions_app, requests_polling, suspensions_polling.
      split; cbn; lia.
  - lia.
  - intros j Hj. destruct (Hproc j Hj) as (rj & -> & Hsj). cbn [pending].
    rewrite Hsj. reflexivity.
  - rewrite Hr. cbn [pending]. rewrite Hs. reflexivity.
Qed.

Lemma eventual_success_witness :
  exists t,
    waitForDeploy (scripted [report "PROCESSING"; report "PROCESSING"] (report "SUCCESS"))
                  (VNum 42) (Some 3) (Some 10) 0%nat =
      (Fulfilled {| success := true; status := VStr (js "SUCCESS") |}, 3%nat, t)
    /\ requests t = 3%nat /\ suspensions t = 2%nat.
Proof.
  apply (eventual_success
           (scripted [report "PROCESSING"; report "PROCESSING"] (report "SUCCESS"))
           (VNum 42) (Some 3) (Some 10) 0%nat 2%nat).
  - reflexivity.
  - intros j Hj. destruct j as [|[|j]]; [eexists; split; reflexivity ..|lia].
  - eexists; split; reflexivity.
Defined.

(** C3 (success flag).  Whatever the answers and the budget, an outcome
    returned by [waitForDeploy] has [success = true] exactly when its status
    is [SUCCESS]; its status is one of [SUCCESS], [FAIL], [CANCEL], [TIMEOUT],
    the last three with [success = false]. *)
Theorem success_iff_status_success client appId maxAttempts intervalMs served
    o served' t :
  waitForDeploy client appId maxAttempts intervalMs served = (Fulfilled o, served', t) ->
  (success o = true <-> status o = VStr (js "SUCCESS"))
  /\ (status o = VStr (js "SUCCESS") \/ status o = VStr (js "FAIL")
      \/ status o = VStr (js "CANCEL") \/ status o = VStr (js "TIMEOUT"))
  /\ (status o = VStr (js "FAIL") \/ status o = VStr (js "CANCEL")
      \/ status o = VStr (js "TIMEOUT") -> success o = false).
Proof.
  intros Hrun.
  destruct (waitForDeploy_cases client appId maxAttempts intervalMs served)
    as [[_ Heq] | (k & _ & _ & Hstop & Heq)]; rewrite Heq in Hrun.
  - injection Hrun as <- _ _. cbn. split; [split; discriminate|].
    split; [tauto|reflexivity].
  - injection Hrun as Hv _ _.
    destruct (verdict_status _ _ Hv Hstop) as (r & _ & -> & -> & Hterm).
    apply terminal_true in Hterm.
    split; [apply strict_eq_str_true|]. split; [tauto|].
    intros [H | [H | H]]; rewrite H; reflexivity.
Qed.

Lemma success_iff_status_success_witness :
  (success {| success := false; status := VStr (js "CANCEL") |} = true
   <-> status {| success := false; status := VStr (js "CANCEL") |} = VStr (js "SUCCESS")).
Proof.
  apply (success_iff_status_success
           (scripted [report "PROCESSING"] (report "CANCEL"))
           (VNum 42) None None 0%nat _ 2%nat
           [Request [VNum 42] (report "PROCESSING"); Timer 1000;
            Request [VNum 42] (report "CANCEL")]).
  reflexivity.
Defined.

(** C4 (terminal failure).  At the first answer that is not pending, if it
    reports [FAIL] or [CANCEL], the waiter returns [{success: false, status}]
    with that status at once: the request that observed it is the last event
    of the journal, so no further call and no suspension follow it, and the
    journal holds nothing but the status requests and suspensions before it
    (no retry of the work item). *)
Theorem terminal_failure_immediate client appId maxAttempts intervalMs served
    (k : nat) r :
  Z.of_nat k < budget maxAttempts ->
  (forall j, (j < k)%nat -> pending (client (served + j)%nat [appId]) = true) ->
  client (served + k)%nat [appId] = Fulfilled r ->
  first_status r = VStr (js "FAIL") \/ first_status r = VStr (js "CANCEL") ->
  exists t,
    waitForDeploy client appId maxAttempts intervalMs served =
      (Fulfilled {| success := false; status := first_status r |},
       (served + k + 1)%nat, t)
    /\ t = polling client appId (interval intervalMs) served k
             ++ [Request [appId] (Fulfilled r)]
    /\ requests t = (k + 1)%nat
    /\ suspensions t = k.
Proof.
  intros Hk Hbefore Hr Hs.
  assert (Hsucc : strict_eq_str (first_status r) (js "SUCCESS") = false).
  { destruct Hs as [-> | ->]; reflexivity. }
  assert (Hterm : terminal (first_status r) = true).
  { apply terminal_true. tauto. }
  unfold waitForDeploy. fold (budget maxAttempts) (interval intervalMs).
  rewrite (poll_stops _ _ _ _ k).
  - rewrite Hr. cbn [verdict]. rewrite Hsucc. eexists. split; [|split; [reflexivity|]].
    + f_equal. f_equal. lia.
    + rewrite requests_app, suspensions_app, requests_polling, suspensions_polling.
      split; cbn; lia.
  - lia.
  - exact Hbefore.
  - rewrite Hr. cbn [pending]. rewrite Hterm. reflexivity.
Qed.

Lemma terminal_failure_immediate_witness :
  exists t,
    waitForDeploy (scripted [report "PROCESSING"; report "FAIL"] (report "SUCCESS"))
                  (VNum 42) (Some 5) None 0%nat =
      (Fulfilled {| success := false; status := VStr (js "FAIL") |}, 2%nat, t)
    /\ t = [Request [VNum 42] (report "PROCESSING"); Timer 1000;
            Request [VNum 42] (report "FAIL")]
    /\ requests t = 2%nat
    /\ suspensions t = 1%nat.
Proof.
  apply (terminal_failure_immediate
           (scripted [report "PROCESSING"; report "FAIL"] (report "SUCCESS"))
           (VNum 42) (Some 5) None 0%nat 1%nat
           {| apps := [VObject [(js "app", VStr (js "42")); (js "status", VStr (js "FAIL"))]] |}).
  - reflexivity.
  - intros j Hj. destruct j; [reflexivity|lia].
  - reflexivity.
  - left. reflexivity.
Defined.

(** C6 (zero-attempt boundary).  With a budget of zero or less the waiter
    returns [{success: false, status: "TIMEOUT"}] at once: no request is made
    and no suspension happens. *)
Theorem zero_attempt_boundary client appId maxAttempts intervalMs served :
  budget maxAttempts <= 0 ->
  waitForDeploy client appId maxAttempts intervalMs served =
    (Fulfilled {| success := false; status := VStr (js "TIMEOUT") |}, served, []).
Proof.
  intros Hle. unfold waitForDeploy. fold (budget maxAttempts).
  apply poll_done. exact Hle.
Qed.

Lemma zero_attempt_boundary_witness :
  waitForDeploy (scripted [] (report "SUCCESS")) (VNum 42) (Some (-2)) (Some 10) 7%nat =
    (Fulfilled {| success := false; status := VStr (js "TIMEOUT") |}, 7%nat, []).
Proof.
  apply (zero_attempt_boundary (scripted [] (report "SUCCESS")) (VNum 42)
           (Some (-2)) (Some 10) 7%nat).
  discriminate.
Defined.

(** The requests of polling rounds: each submits the batch [[appId]] and
    records the answer of the client at its turn. *)
Lemma polling_request client appId ms k : forall served b a,
  In (Request b a) (polling client appId ms served k) ->
  b = [appId] /\ exists j, (j < k)%nat /\ a = client (served + j)%nat [appId].
Proof.
  induction k as [|k IH]; intros served b a Hin; [destruct Hin|].
  cbn [polling] in Hin. destruct Hin as [[= <- <-] | [[=] | Hin]].
  - split; [reflexivity|]. exists O. split; [lia|]. rewrite Nat.add_0_r. reflexivity.
  - destruct (IH _ _ _ Hin) as [-> (j & Hj & ->)]. split; [reflexivity|].
    exists (S j). split; [lia|]. f_equal. lia.
Qed.

(** C7 (transport errors).  If some call to [getDeployStatus] of a run
    raises [e], the run settles with that very [e] and with no outcome: the
    failing request is the last event of the journal (nothing is caught, no
    call is repeated, no suspension follows), and everything before it is
    polling rounds. *)
Theorem transport_error_propagates client appId maxAttempts intervalMs served
    res served' t b e :
  waitForDeploy client appId maxAttempts intervalMs served = (res, served', t) ->
  In (Request b (Rejected e)) t ->
  res = Rejected e
  /\ (forall o, res <> Fulfilled o)
  /\ exists k : nat,
       Z.of_nat k < budget maxAttempts
       /\ client (served + k)%nat [appId] = Rejected e
       /\ t = polling client appId (interval intervalMs) served k
                ++ [Request [appId] (Rejected e)]
       /\ served' = (served + k + 1)%nat.
Proof.
  intros Hrun Hin.
  assert (Hno : forall k, (forall j, (j < k)%nat ->
                  pending (client (served + j)%nat [appId]) = true) ->
                ~ In (Request b (Rejected e))
                    (polling client appId (interval intervalMs) served k)).
  { intros k Hall Hk. apply polling_request in Hk as [_ (j & Hj & Ha)].
    specialize (Hall j Hj). rewrite <- Ha in Hall. discriminate. }
  destruct (waitForDeploy_cases client appId maxAttempts intervalMs served)
    as [[Hall Heq] | (k & Hk & Hbefore & Hstop & Heq)];
    rewrite Heq in Hrun; injection Hrun as <- <- <-.
  - exfalso. exact (Hno _ Hall Hin).
  - apply in_app_or in Hin as [Hin | [[= <- He] | []]]; [exfalso; exact (Hno _ Hbefore Hin)|].
    rewrite He. cbn [verdict]. split; [reflexivity|]. split; [discriminate|].
    exists k. split; [lia|]. split; [auto|]. split; [reflexivity|lia].
Qed.

Lemma transport_error_propagates_witness :
  (Rejected (VStr (js "ECONNRESET")) : settled WaitOutcome) = Rejected (VStr (js "ECONNRESET"))
  /\ (forall o : WaitOutcome, Rejected (VStr (js "ECONNRESET")) <> Fulfilled o)
  /\ exists k : nat,
       Z.of_nat k < 30
       /\ scripted [report "PROCESSING"] (Rejected (VStr (js "ECONNRESET")))
            (0 + k)%nat [VNum 42] = Rejected (VStr (js "ECONNRESET"))
       /\ [Request [VNum 42] (report "PROCESSING"); Timer 1000;
           Request [VNum 42] (Rejected (VStr (js "ECONNRESET")))]
          = polling (scripted [report "PROCESSING"] (Rejected (VStr (js "ECONNRESET"))))
              (VNum 42) 1000 0 k ++ [Request [VNum 42] (Rejected (VStr (js "ECONNRESET")))]
       /\ 2%nat = (0 + k + 1)%nat.
Proof.
  apply (transport_error_propagates
           (scripted [report "PROCESSING"] (Rejected (VStr (js "ECONNRESET"))))
           (VNum 42) None None 0%nat
           (Rejected (VStr (js "ECONNRESET"))) 2%nat
           [Request [VNum 42] (report "PROCESSING"); Timer 1000;
            Request [VNum 42] (Rejected (VStr (js "ECONNRESET")))]
           [VNum 42] (VStr (js "ECONNRESET"))).
  - reflexivity.
  - right. right. left. reflexivity.
Defined.

(** [k] pending answers are [k] polling rounds, after which the loop goes on
    from counter [i + k]. *)
Lemma poll_skip client appId maxAttempts intervalMs (k : nat) :
  forall (i : Z) (served : nat),
  (k <= Z.to_nat (maxAttempts - i))%nat ->
  (forall j, (j < k)%nat -> pending (client (served + j)%nat [appId]) = true) ->
  poll client appId maxAttempts intervalMs i served =
    match poll client appId maxAttempts intervalMs (i + Z.of_nat k) (served + k)%nat with
    | (res, served', rest) =>
        (res, served', polling client appId intervalMs served k ++ rest)
    end.
Proof.
  induction k as [|k IH]; intros i served Hk Hall.
  - rewrite Z.add_0_r, Nat.add_0_r.
    destruct (poll _ _ _ _ _ _) as [[res served'] rest]. reflexivity.
  - rewrite poll_step by lia. cbn zeta.
    pose proof (Hall O ltac:(lia)) as H0. rewrite Nat.add_0_r in H0. rewrite H0.
    rewrite (IH (i + 1) (S served)).
    + replace (i + 1 + Z.of_nat k) with (i + Z.of_nat (S k)) by lia.
      replace (S served + k)%nat with (served + S k)%nat by lia.
      destruct (poll _ _ _ _ _ _) as [[res served'] rest]. reflexivity.
    + lia.
    + later_answers Hall.
Qed.

(** Clients whose answers are alike drive the loop to the same result after
    the same number of requests and suspensions. *)
Lemma poll_alike c1 c2 appId maxAttempts intervalMs (n : nat) :
  forall (i : Z) (served : nat),
  Z.to_nat (maxAttempts - i) = n ->
  (forall j, (j < n)%nat ->
     alike (c1 (served + j)%nat [appId]) (c2 (served + j)%nat [appId])) ->
  (poll c1 appId maxAttempts intervalMs i served).1
    = (poll c2 appId maxAttempts intervalMs i served).1
  /\ requests (poll c1 appId maxAttempts intervalMs i served).2
     = requests (poll c2 appId maxAttempts intervalMs i served).2
  /\ suspensions (poll c1 appId maxAttempts intervalMs i served).2
     = suspensions (poll c2 appId maxAttempts intervalMs i served).2.
Proof.
  induction n as [|n IH]; intros i served Hn Hall.
  - rewrite (poll_done c1), (poll_done c2) by lia. repeat split.
  - rewrite (poll_step c1), (poll_step c2) by lia. cbn zeta.
    pose proof (Hall O ltac:(lia)) as H0. rewrite Nat.add_0_r in H0.
    destruct H0 as [[-> ->] | (-> & -> & ->)]; [|repeat split].
    destruct (IH (i + 1) (S served)) as (Hres & Hreq & Hsus).
    + lia.
    + later_answers Hall.
    + destruct (poll c1 _ _ _ _ _) as [[r1 s1] t1].
      destruct (poll c2 _ _ _ _ _) as [[r2 s2] t2].
      cbn in *. unfold requests, suspensions in *. cbn. repeat split; congruence.
Qed.

Lemma same_first_entry_alike a1 a2 : same_first_entry a1 a2 -> alike a1 a2.
Proof.
  destruct a1 as [r1|e1], a2 as [r2|e2]; cbn; try tauto.
  - intros H. unfold alike. cbn. unfold first_status. rewrite H.
    destruct (terminal _); [right|left]; repeat split.
  - intros ->. right. repeat split.
Qed.

Lemma alike_refl a : alike a a.
Proof. unfold alike. destruct (pending a); [left|right]; repeat split. Qed.

Lemma not_terminal_pending r :
  first_status r <> VStr (js "SUCCESS") ->
  first_status r <> VStr (js "FAIL") ->
  first_status r <> VStr (js "CANCEL") ->
  pending (Fulfilled r) = true.
Proof.
  intros H1 H2 H3. cbn [pending]. apply negb_true_iff.
  destruct (terminal (first_status r)) eqn:Ht; [|reflexivity].
  apply terminal_true in Ht. tauto.
Qed.

(** C5, amended (unrecognised status).  When the answer to a poll carries a
    status outside [SUCCESS], [FAIL], [CANCEL] (an unknown string, a value that
    is no string, a missing [status] field, an empty [apps] list), the waiter
    raises nothing for it: it suspends for [intervalMs] and goes on with the
    next attempt.  The run is the one a [PROCESSING] report in its place gives:
    same result, same number of requests and suspensions.  It therefore ends
    with [TIMEOUT], with a later terminal status, or with the error raised by
    a later request, which is passed on uncaught. *)
Theorem unrecognized_status_keeps_polling client appId maxAttempts intervalMs
    served (k : nat) r :
  Z.of_nat k < budget maxAttempts ->
  (forall j, (j < k)%nat -> pending (client (served + j)%nat [appId]) = true) ->
  client (served + k)%nat [appId] = Fulfilled r ->
  first_status r <> VStr (js "SUCCESS") ->
  first_status r <> VStr (js "FAIL") ->
  first_status r <> VStr (js "CANCEL") ->
  let ms := interval intervalMs in
  let run := waitForDeploy client appId maxAttempts intervalMs served in
  let next :=
    poll client appId (budget maxAttempts) ms (Z.of_nat k + 1) (served + k + 1)%nat in
  let run' :=
    waitForDeploy (patch client (served + k) (report "PROCESSING"))
      appId maxAttempts intervalMs served in
  run = (next.1.1, next.1.2,
         polling client appId ms served k
           ++ Request [appId] (Fulfilled r) :: Timer ms :: next.2)
  /\ (run'.1 = run.1
      /\ requests run'.2 = requests run.2
      /\ suspensions run'.2 = suspensions run.2)
  /\ match run.1.1 with
     | Fulfilled o =>
         o = TIMEOUT
         \/ exists j r', (k < j)%nat
              /\ client (served + j)%nat [appId] = Fulfilled r'
              /\ terminal (first_status r') = true
              /\ status o = first_status r'
     | Rejected e =>
         exists j, (k < j)%nat /\ client (served + j)%nat [appId] = Rejected e
     end.
Proof.
  intros Hk Hbefore Hr H1 H2 H3 ms run next run'.
  pose proof (not_terminal_pending r H1 H2 H3) as Hpend.
  split; [|split].
  - subst run next. unfold waitForDeploy.
    fold (budget maxAttempts) (interval intervalMs). fold ms.
    rewrite (poll_skip _ _ _ _ k) by (auto; lia).
    rewrite (poll_step _ _ _ _ (0 + Z.of_nat k)) by lia. cbn zeta.
    rewrite Hr, Hpend.
    replace (0 + Z.of_nat k + 1) with (Z.of_nat k + 1) by lia.
    replace (S (served + k)) with (served + k + 1)%nat by lia.
    destruct (poll _ _ _ _ _ _) as [[res served'] rest]. reflexivity.
  - subst run run'. unfold waitForDeploy.
    apply (poll_alike _ _ _ _ _ (Z.to_nat (default 30 maxAttempts))); [lia|].
    intros j _. unfold patch.
    destruct (Nat.eqb_spec (served + j) (served + k)) as [Heq | _]; [|apply alike_refl].
    left. replace j with k by lia. rewrite Hr. split; [reflexivity|exact Hpend].
  - subst run.
    destruct (waitForDeploy_cases client appId maxAttempts intervalMs served)
      as [[_ Heq] | (k' & Hk' & Hbefore' & Hstop & Heq)]; rewrite Heq; cbn.
    + left. reflexivity.
    + assert (k < k')%nat as Hlt.
      { destruct (Nat.lt_trichotomy k k') as [Hlt | [-> | Hgt]]; [exact Hlt| |].
        - rewrite Hr, Hpend in Hstop. discriminate.
        - rewrite (Hbefore k' Hgt) in Hstop. discriminate. }
      destruct (client (served + k')%nat [appId]) as [r'|e] eqn:Ha; cbn.
      * right. exists k', r'. repeat split; [exact Hlt | exact Ha |].
        cbn in Hstop. apply negb_false_iff. exact Hstop.
      * exists k'. split; [exact Hlt | exact Ha].
Qed.

Lemma unrecognized_status_keeps_polling_witness :
  waitForDeploy
    (scripted [report "PROCESSING"; Fulfilled {| apps := [] |}] (report "SUCCESS"))
    (VNum 42) (Some 3) (Some 10) 0%nat =
  (Fulfilled {| success := true; status := VStr (js "SUCCESS") |}, 3%nat,
   [Request [VNum 42] (report "PROCESSING"); Timer 10;
    Request [VNum 42] (Fulfilled {| apps := [] |}); Timer 10;
    Request [VNum 42] (report "SUCCESS")]).
Proof.
  apply (proj1 (unrecognized_status_keeps_polling
                  (scripted [report "PROCESSING"; Fulfilled {| apps := [] |}]
                     (report "SUCCESS"))
                  (VNum 42) (Some 3) (Some 10) 0%nat 1%nat {| apps := [] |}
                  ltac:(reflexivity)
                  ltac:(intros j Hj; destruct j; [reflexivity|lia])
                  ltac:(reflexivity)
                  ltac:(discriminate) ltac:(discriminate) ltac:(discriminate))).
Defined.

(** The claim as first stated, that such a run ends only with a later
    terminal status or with [TIMEOUT], fails when a later request raises: an
    unrecognised [QUEUED] followed by a connection error ends the run with
    that error and with no outcome. *)
Lemma later_error_after_unrecognized_status :
  waitForDeploy (scripted [report "QUEUED"] (Rejected (VStr (js "ECONNRESET"))))
    (VNum 42) (Some 3) (Some 10) 0%nat
  = (Rejected (VStr (js "ECONNRESET")), 2%nat,
     [Request [VNum 42] (report "QUEUED"); Timer 10;
      Request [VNum 42] (Rejected (VStr (js "ECONNRESET")))])
  /\ ~ (forall client appId maxAttempts intervalMs served r,
          0 < budget maxAttempts ->
          client served [appId] = Fulfilled r ->
          first_status r <> VStr (js "SUCCESS") ->
          first_status r <> VStr (js "FAIL") ->
          first_status r <> VStr (js "CANCEL") ->
          exists o,
            (waitForDeploy client appId maxAttempts intervalMs served).1.1 = Fulfilled o
            /\ (status o = VStr (js "TIMEOUT") \/ terminal (status o) = true)).
Proof.
  split; [reflexivity|]. intros Hall.
  destruct (Hall (scripted [report "QUEUED"] (Rejected (VStr (js "ECONNRESET"))))
              (VNum 42) (Some 3) (Some 10) 0%nat
              {| apps := [VObject [(js "app", VStr (js "42"));
                                   (js "status", VStr (js "QUEUED"))]] |})
    as (o & Ho & _); try reflexivity; try discriminate.
Qed.

(** A response whose first entry has no [status] field reads as [undefined],
    which is none of the terminal statuses. *)
Example missing_status_field :
  first_status {| apps := [VObject [(js "app", VStr (js "42"))]] |} = VUndefined
  /\ first_status {| apps := [] |} = VUndefined
  /\ first_status {| apps := [VNull] |} = VUndefined
  /\ terminal VUndefined = false.
Proof. repeat split. Qed.

(** C9 (singleton batch, first entry only).  Every request of a run submits
    the batch [[appId]].  If two clients always answer with the same first
    entry (whatever the entries after it), the two runs settle the same way
    after the same number of requests. *)
Theorem first_entry_only c1 c2 appId maxAttempts intervalMs served :
  (forall b a,
     In (Request b a) (waitForDeploy c1 appId maxAttempts intervalMs served).2 ->
     b = [appId])
  /\ ((forall j, same_first_entry (c1 (served + j)%nat [appId])
                                  (c2 (served + j)%nat [appId])) ->
      (waitForDeploy c1 appId maxAttempts intervalMs served).1
        = (waitForDeploy c2 appId maxAttempts intervalMs served).1
      /\ requests (waitForDeploy c1 appId maxAttempts intervalMs served).2
         = requests (waitForDeploy c2 appId maxAttempts intervalMs served).2).
Proof.
  split.
  - intros b a.
    destruct (waitForDeploy_cases c1 appId maxAttempts intervalMs served)
      as [[_ Heq] | (k & _ & _ & _ & Heq)]; rewrite Heq; cbn [snd].
    + intros Hin. apply polling_request in Hin. tauto.
    + intros Hin. apply in_app_or in Hin as [Hin | [[= <- _] | []]]; [|reflexivity].
      apply polling_request in Hin. tauto.
  - intros Hsame. unfold waitForDeploy.
    destruct (poll_alike c1 c2 appId (default 30 maxAttempts) (default 1000 intervalMs)
                (Z.to_nat (default 30 maxAttempts)) 0 served) as (Hres & Hreq & _).
    + lia.
    + intros j _. apply same_first_entry_alike, Hsame.
    + split; assumption.
Qed.

Lemma first_entry_only_witness :
  (waitForDeploy (scripted [report "PROCESSING"] (report "CANCEL"))
     (VNum 42) None None 0%nat).1
  = (waitForDeploy
       (scripted [crowded "PROCESSING" [VObject [(js "status", VStr (js "SUCCESS"))]]]
          (crowded "CANCEL" [VNull; VNum 7]))
       (VNum 42) None None 0%nat).1
  /\ requests (waitForDeploy (scripted [report "PROCESSING"] (report "CANCEL"))
                 (VNum 42) None None 0%nat).2
     = requests (waitForDeploy
                   (scripted
                      [crowded "PROCESSING" [VObject [(js "status", VStr (js "SUCCESS"))]]]
                      (crowded "CANCEL" [VNull; VNum 7]))
                   (VNum 42) None None 0%nat).2.
Proof.
  apply (proj2 (first_entry_only
                  (scripted [report "PROCESSING"] (report "CANCEL"))
                  (scripted
                     [crowded "PROCESSING" [VObject [(js "status", VStr (js "SUCCESS"))]]]
                     (crowded "CANCEL" [VNull; VNum 7]))
                  (VNum 42) None None 0%nat)).
  intros j. destruct j as [|j]; [reflexivity|]. destruct j; reflexivity.
Defined.

(* ===================================================================== *)
(** * Suspension points *)
(* ===================================================================== *)
















(* ===================================================================== *)
(** * Properties of loadEnv *)
(* ===================================================================== *)

Lemma split_cons_part sep s : exists part parts, split sep s = part :: parts.
Proof.
  induction s as [|c s (part & parts & IH)]; cbn; [eauto|].
  destruct (c =? sep)%N; [eauto|]. rewrite IH. eauto.
Qed.

(** Up to the first separator. *)
Lemma split_first sep key rest :
  ~ In sep key -> split sep (key ++ sep :: rest) = key :: split sep rest.
Proof.
  induction key as [|c key IH]; intros Hnot; cbn.
  - rewrite N.eqb_refl. reflexivity.
  - destruct (N.eqb_spec c sep) as [-> | _]; [exfalso; apply Hnot; left; reflexivity|].
    rewrite IH; [reflexivity|]. intros Hin. apply Hnot. right. exact Hin.
Qed.

Lemma split_no_separator sep s : ~ In sep s -> split sep s = [s].
Proof.
  induction s as [|c s IH]; intros Hnot; cbn; [reflexivity|].
  destruct (N.eqb_spec c sep) as [-> | _]; [exfalso; apply Hnot; left; reflexivity|].
  rewrite IH; [reflexivity|]. intros Hin. apply Hnot. right. exact Hin.
Qed.

(** Joining the parts with the separator gives the string back: the
    separators of a value survive. *)
Lemma join_split sep s : join [sep] (split sep s) = s.
Proof.
  induction s as [|c s IH]; [reflexivity|]. cbn [split].
  destruct (N.eqb_spec c sep) as [-> | _].
  - destruct (split_cons_part sep s) as (part & parts & Hs).
    rewrite Hs in *. cbn [join app] in *. rewrite IH. reflexivity.
  - destruct (split_cons_part sep s) as (part & parts & Hs).
    rewrite Hs in *. destruct parts as [|part' parts].
    + cbn [join] in *. rewrite IH. reflexivity.
    + change (join [sep] ((c :: part) :: part' :: parts))
        with (c :: (part ++ [sep] ++ join [sep] (part' :: parts))).
      change (join [sep] (part :: part' :: parts))
        with (part ++ [sep] ++ join [sep] (part' :: parts)) in IH.
      rewrite IH. reflexivity.
Qed.

Lemma trimStart_incl c s : In c (trimStart s) -> In c s.
Proof.
  induction s as [|d s IH]; cbn; [tauto|].
  destruct (is_whitespace d); [|tauto]. intros H. right. exact (IH H).
Qed.

Lemma trim_incl c s : In c (trim s) -> In c s.
Proof.
  unfold trim, trimEnd. intros H. apply trimStart_incl.
  apply in_rev in H. apply trimStart_incl in H. apply in_rev. exact H.
Qed.

Lemma fold_envLine_untouched (k : jsstring) (lines : list jsstring) :
  (forall l, In l lines -> forall env, envLine env l !! k = env !! k) ->
  forall env, fold_left envLine lines env !! k = env !! k.
Proof.
  induction lines as [|l lines IH]; intros Hkeep env; [reflexivity|].
  cbn [fold_left]. rewrite IH.
  - apply Hkeep. left. reflexivity.
  - intros l' Hin. apply Hkeep. right. exact Hin.
Qed.

Lemma startsWith_unit c s d : startsWith (c :: s) [d] = (c =? d)%N.
Proof. cbn [startsWith]. destruct s; apply andb_true_r. Qed.

(** The assignment a line [KEY=VALUE] makes. *)
Lemma envLine_assigns env line key val :
  trim line = key ++ js "=" ++ val ->
  key <> [] ->
  ~ In (N_of_ascii "=") key ->
  startsWith key (js "#") = false ->
  trim key <> js "__proto__" ->
  envLine env line = <[trim key := trim val]> env.
Proof.
  intros Hline Hkey Hnoeq Hhash Hproto. unfold envLine. cbn zeta. rewrite Hline.
  change (js "=" ++ val) with (N_of_ascii "=" :: val).
  destruct key as [|c key]; [congruence|].
  change (js "#") with [35%N] in *.
  rewrite startsWith_unit in Hhash.
  rewrite (startsWith_unit c (key ++ N_of_ascii "=" :: val) 35
           : startsWith ((c :: key) ++ N_of_ascii "=" :: val) [35%N] = _), Hhash.
  rewrite bool_decide_eq_false_2 by discriminate. cbn [orb].
  rewrite split_first by exact Hnoeq.
  rewrite bool_decide_eq_false_2 by discriminate. cbn [negb andb].
  destruct (split_cons_part (N_of_ascii "=") val) as (part & parts & Hs).
  pose proof (join_split (N_of_ascii "=") val) as Hjoin.
  rewrite Hs in *. cbn [length Nat.ltb Nat.leb].
  change (js "=") with [N_of_ascii "="]. rewrite Hjoin.
  unfold set_property. rewrite bool_decide_eq_false_2 by exact Hproto. reflexivity.
Qed.

(** The lines that leave the object as it is. *)
Lemma envLine_ignores env line :
  trim line = []
  \/ startsWith (trim line) (js "#") = true
  \/ ~ In (N_of_ascii "=") line
  \/ startsWith (trim line) (js "=") = true ->
  envLine env line = env.
Proof.
  unfold envLine. cbn zeta. intros [H | [H | [H | H]]].
  - rewrite H. reflexivity.
  - rewrite H, orb_true_r. reflexivity.
  - destruct (_ || _); [reflexivity|].
    rewrite split_no_separator; [|intros Hin; apply H, trim_incl, Hin].
    rewrite andb_false_r. reflexivity.
  - destruct (_ || _); [reflexivity|].
    destruct (trim line) as [|c s]; [discriminate|].
    change (js "=") with [61%N] in H. rewrite startsWith_unit in H.
    cbn [split]. change (N_of_ascii "=") with 61%N. rewrite H. reflexivity.
Qed.

(** C10, amended (entries of the .env file).  A line whose trimmed text is
    [KEY=REST], with a non-empty [KEY] that holds no ['='], does not start
    with ['#'] and is not the accessor name [__proto__], sets the trimmed
    [KEY] to the trimmed [REST]: the text after the first ['='], its further
    ['='] signs kept; when nothing follows the ['='] the entry is the empty
    string.  Blank lines, lines whose trimmed text starts with ['#'], lines
    with no ['='] and lines with nothing before the ['='] leave the object
    unchanged.  The object [loadEnv] returns for a readable file maps the key
    of such a line to its value unless a later line sets the key again. *)
Theorem loadEnv_entries resolve readFileSync rootDir envContent :
  readFileSync (resolve rootDir (js ".env")) = Some envContent ->
  (forall env line key rest,
     trim line = key ++ js "=" ++ rest ->
     key <> [] -> ~ In (N_of_ascii "=") key ->
     startsWith key (js "#") = false -> trim key <> js "__proto__" ->
     envLine env line = <[trim key := trim rest]> env)
  /\ (forall env line key,
        trim line = key ++ js "=" ->
        key <> [] -> ~ In (N_of_ascii "=") key ->
        startsWith key (js "#") = false -> trim key <> js "__proto__" ->
        envLine env line = <[trim key := []]> env)
  /\ (forall env line,
        trim line = []
        \/ startsWith (trim line) (js "#") = true
        \/ ~ In (N_of_ascii "=") line
        \/ startsWith (trim line) (js "=") = true ->
        envLine env line = env)
  /\ (forall pre line post key rest,
        split (N_of_ascii "010") envContent = pre ++ line :: post ->
        trim line = key ++ js "=" ++ rest ->
        key <> [] -> ~ In (N_of_ascii "=") key ->
        startsWith key (js "#") = false -> trim key <> js "__proto__" ->
        (forall l, In l post -> forall env, envLine env l !! trim key = env !! trim key) ->
        exists env,
          loadEnv resolve readFileSync rootDir = Returned env
          /\ env !! trim key = Some (trim rest)).
Proof.
  intros Hread. split; [|split; [|split]].
  - intros env line key rest. apply envLine_assigns.
  - intros env line key Hline. rewrite <- (app_nil_r (js "=")) in Hline.
    apply (envLine_assigns env line key [] Hline).
  - exact envLine_ignores.
  - intros pre line post key rest Hlines Hline Hkey Hnoeq Hhash Hproto Hlater.
    unfold loadEnv. rewrite Hread, Hlines. eexists. split; [reflexivity|].
    rewrite fold_left_app. cbn [fold_left].
    rewrite (fold_envLine_untouched _ _ Hlater).
    rewrite (envLine_assigns _ line key rest Hline Hkey Hnoeq Hhash Hproto).
    apply lookup_insert_eq.
Qed.

Lemma loadEnv_entries_witness :
  exists env,
    loadEnv sample_resolve sample_readFileSync (js "/app") = Returned env
    /\ env !! js "KINTONE_DOMAIN" = Some (js "a=b=c").
Proof.
  refine (proj2 (proj2 (proj2
    (loadEnv_entries sample_resolve sample_readFileSync (js "/app") sample_env eq_refl)))
    [js "# kintone"] (js " KINTONE_DOMAIN = a=b=c ")
    [js ""; js "PLAIN"; js "  # KEY=x"]
    (js "KINTONE_DOMAIN ") (js " a=b=c") eq_refl eq_refl _ _ eq_refl _ _).
  - discriminate.
  - vm_compute. intuition discriminate.
  - vm_compute. discriminate.
  - intros l [<- | [<- | [<- | []]]] env; reflexivity.
Defined.

(** The claim as first stated fails on a line with nothing after the ['=']:
    the line is not ignored, the key is set to the empty string. *)
Lemma empty_value_line_makes_entry :
  loadEnv sample_resolve (fun _ => Some (js "KEY=")) (js "/app")
    = Returned {[ js "KEY" := [] ]}
  /\ ~ (forall (env : env_object) (line key : jsstring),
          trim line = key ++ js "=" -> envLine env line = env).
Proof.
  split; [vm_compute; reflexivity|].
  intros Hall. specialize (Hall ∅ (js "KEY=") (js "KEY") eq_refl).
  apply (f_equal (fun env : env_object => env !! js "KEY")) in Hall.
  vm_compute in Hall. discriminate.
Qed.

(** The property name [__proto__] is the one a line cannot set. *)
Example proto_line_sets_nothing :
  envLine ∅ (js "__proto__=a=b") = ∅ /\ envLine ∅ (js "constructor=a=b") <> ∅.
Proof.
  split; [reflexivity|]. intros H.
  apply (f_equal (fun env : env_object => env !! js "constructor")) in H.
  vm_compute in H. discriminate.
Qed.

(* ===================================================================== *)
(** * More on waitForDeploy: budget, resumption *)
(* ===================================================================== *)

Lemma delay_polling client appId ms k : forall served,
  delay (polling client appId ms served k) = ms * Z.of_nat k.
Proof.
  induction k as [|k IH]; intros served; [cbn; lia|].
  cbn [polling delay]. rewrite IH. lia.
Qed.

Lemma delay_app t1 t2 : delay (t1 ++ t2) = delay t1 + delay t2.
Proof.
  induction t1 as [|[b a|ms] t1 IH]; cbn [app delay]; [reflexivity|exact IH|lia].
Qed.

Lemma run_resources client appId maxAttempts intervalMs served :
  let run := waitForDeploy client appId maxAttempts intervalMs served in
  Z.of_nat (requests run.2) <= Z.max 0 (budget maxAttempts)
  /\ (suspensions run.2 <= requests run.2)%nat
  /\ run.1.2 = (served + requests run.2)%nat
  /\ delay run.2 = interval intervalMs * Z.of_nat (suspensions run.2).
Proof.
  cbn zeta.
  destruct (waitForDeploy_cases client appId maxAttempts intervalMs served)
    as [[_ Heq] | (k & Hk & _ & _ & Heq)]; rewrite Heq; cbn [fst snd].
  - rewrite requests_polling, suspensions_polling, delay_polling. lia.
  - rewrite requests_app, suspensions_app, delay_app, requests_polling,
      suspensions_polling, delay_polling. cbn. lia.
Qed.

(** X1 (resources of a run).  A run makes at most [maxAttempts] requests (none
    for a budget below one), suspends at most once per request, advances the
    client by exactly the requests it made, and asks its timers for
    [intervalMs] per suspension in total. *)
Theorem waitForDeploy_resources client appId maxAttempts intervalMs served :
  let run := waitForDeploy client appId maxAttempts intervalMs served in
  Z.of_nat (requests run.2) <= Z.max 0 (budget maxAttempts)
  /\ (suspensions run.2 <= requests run.2)%nat
  /\ run.1.2 = (served + requests run.2)%nat
  /\ delay run.2 = interval intervalMs * Z.of_nat (suspensions run.2).
Proof. apply run_resources. Qed.

(** The loop looks at the distance between the counter and the bound only. *)
Lemma poll_shift client appId intervalMs (d : Z) (n : nat) :
  forall (maxAttempts i : Z) (served : nat),
  Z.to_nat (maxAttempts - i) = n ->
  poll client appId (maxAttempts + d) intervalMs (i + d) served
  = poll client appId maxAttempts intervalMs i served.
Proof.
  induction n as [|n IH]; intros maxAttempts i served Hn.
  - rewrite !poll_done by lia. reflexivity.
  - rewrite (poll_step _ _ (maxAttempts + d)), (poll_step _ _ maxAttempts) by lia.
    cbn zeta. replace (i + d + 1) with (i + 1 + d) by lia.
    rewrite (IH maxAttempts (i + 1) (S served)) by lia. reflexivity.
Qed.

(** X2 (a larger budget changes nothing once a run has stopped).  If a run
    with budget [m] ends otherwise than by [TIMEOUT] (a terminal status or an
    error), every budget [m' >= m] gives the same result, the same number of
    requests and the same journal. *)
Theorem larger_budget_same_run client appId intervalMs served (m m' : Z) :
  m <= m' ->
  (waitForDeploy client appId (Some m) intervalMs served).1.1 <> Fulfilled TIMEOUT ->
  waitForDeploy client appId (Some m') intervalMs served
  = waitForDeploy client appId (Some m) intervalMs served.
Proof.
  intros Hle Hres.
  destruct (waitForDeploy_cases client appId (Some m) intervalMs served)
    as [[_ Heq] | (k & Hk & Hbefore & Hstop & Heq)]; rewrite Heq in *.
  - exfalso. apply Hres. reflexivity.
  - unfold waitForDeploy. change (default 30 (Some m')) with m'.
    fold (interval intervalMs).
    apply poll_stops; [|exact Hbefore|exact Hstop].
    change (budget (Some m)) with m in Hk. lia.
Qed.

Lemma larger_budget_same_run_witness :
  waitForDeploy (scripted [report "PROCESSING"] (report "FAIL")) (VNum 42)
    (Some 30) (Some 10) 0%nat
  = waitForDeploy (scripted [report "PROCESSING"] (report "FAIL")) (VNum 42)
      (Some 2) (Some 10) 0%nat.
Proof.
  apply (larger_budget_same_run (scripted [report "PROCESSING"] (report "FAIL"))
           (VNum 42) (Some 10) 0%nat 2 30).
  - discriminate.
  - discriminate.
Defined.

(** X3 (waiting again after a timeout).  If a wait with budget [m] times out,
    a second wait with budget [n] on the same client continues it: together
    they are the single wait with budget [m + n], journal after journal. *)
Theorem wait_again_after_timeout client appId intervalMs served (m n : Z)
    served1 t1 :
  0 <= m -> 0 <= n ->
  waitForDeploy client appId (Some m) intervalMs served
    = (Fulfilled TIMEOUT, served1, t1) ->
  waitForDeploy client appId (Some (m + n)) intervalMs served
  = ((waitForDeploy client appId (Some n) intervalMs served1).1,
     t1 ++ (waitForDeploy client appId (Some n) intervalMs served1).2).
Proof.
  intros Hm Hn Hrun.
  destruct (waitForDeploy_cases client appId (Some m) intervalMs served)
    as [[Hall Heq] | (k & Hk & Hbefore & Hstop & Heq)]; rewrite Heq in Hrun.
  - injection Hrun as <- <-. change (budget (Some m)) with m in *.
    unfold waitForDeploy. change (default 30 (Some (m + n))) with (m + n).
    change (default 30 (Some n)) with n. fold (interval intervalMs).
    rewrite (poll_skip _ _ _ _ (Z.to_nat m)) by (auto; lia).
    replace (0 + Z.of_nat (Z.to_nat m)) with (0 + m) by lia.
    replace (m + n) with (n + m) by lia.
    rewrite (poll_shift _ _ _ m (Z.to_nat n)) by lia.
    destruct (poll _ _ _ _ _ _) as [[res served'] rest]. reflexivity.
  - injection Hrun as Hv _ _.
    destruct (verdict_status _ _ Hv Hstop) as (r & _ & Hs & _ & Hterm).
    rewrite <- Hs in Hterm. discriminate.
Qed.

Lemma wait_again_after_timeout_witness :
  waitForDeploy (scripted [report "PROCESSING"; report "PROCESSING"] (report "SUCCESS"))
    (VNum 42) (Some (2 + 3)) (Some 10) 0%nat
  = ((waitForDeploy
        (scripted [report "PROCESSING"; report "PROCESSING"] (report "SUCCESS"))
        (VNum 42) (Some 3) (Some 10) 2%nat).1,
     [Request [VNum 42] (report "PROCESSING"); Timer 10;
      Request [VNum 42] (report "PROCESSING"); Timer 10]
       ++ (waitForDeploy
             (scripted [report "PROCESSING"; report "PROCESSING"] (report "SUCCESS"))
             (VNum 42) (Some 3) (Some 10) 2%nat).2).
Proof.
  apply (wait_again_after_timeout
           (scripted [report "PROCESSING"; report "PROCESSING"] (report "SUCCESS"))
           (VNum 42) (Some 10) 0%nat 2 3 2%nat
           [Request [VNum 42] (report "PROCESSING"); Timer 10;
            Request [VNum 42] (report "PROCESSING"); Timer 10]).
  - discriminate.
  - discriminate.
  - reflexivity.
Defined.

(* ===================================================================== *)
(** * Trimming *)
(* ===================================================================== *)

Lemma blank_app w1 w2 : blank w1 -> blank w2 -> blank (w1 ++ w2).
Proof. unfold blank. rewrite forallb_app. intros -> ->. reflexivity. Qed.

Lemma trimStart_blank w s : blank w -> trimStart (w ++ s) = trimStart s.
Proof.
  unfold blank. induction w as [|c w IH]; cbn; [reflexivity|].
  intros H. apply andb_true_iff in H as [-> H]. exact (IH H).
Qed.

Lemma trimStart_keeps c s : is_whitespace c = false -> trimStart (c :: s) = c :: s.
Proof. intros H. cbn. rewrite H. reflexivity. Qed.

(** What [trimStart] leaves is empty or starts with a character that is not
    whitespace, and what it drops is blank. *)
Lemma trimStart_anatomy s :
  exists w, blank w /\ s = w ++ trimStart s
            /\ (trimStart s = []
                \/ exists c r, trimStart s = c :: r /\ is_whitespace c = false).
Proof.
  induction s as [|c s (w & Hw & Hs & Hhead)].
  - exists []. repeat split. left. reflexivity.
  - cbn [trimStart]. destruct (is_whitespace c) eqn:Hc.
    + exists (c :: w). split; [|split; [|exact Hhead]].
      * unfold blank in *. cbn. rewrite Hc, Hw. reflexivity.
      * cbn. f_equal. exact Hs.
    + exists []. repeat split. right. exists c, s. split; [reflexivity|exact Hc].
Qed.

Lemma trimEnd_snoc s c :
  trimEnd (s ++ [c]) = if is_whitespace c then trimEnd s else s ++ [c].
Proof.
  unfold trimEnd. rewrite rev_app_distr. cbn [rev app trimStart].
  destruct (is_whitespace c); [reflexivity|].
  cbn [rev]. rewrite rev_involutive. reflexivity.
Qed.

Lemma trimEnd_blank s w : blank w -> trimEnd (s ++ w) = trimEnd s.
Proof.
  unfold blank. induction w as [|c w IH] using rev_ind; intros H.
  - rewrite app_nil_r. reflexivity.
  - rewrite forallb_app in H. apply andb_true_iff in H as [Hw Hc].
    cbn in Hc. rewrite andb_true_r in Hc.
    rewrite app_assoc, trimEnd_snoc, Hc. exact (IH Hw).
Qed.

Lemma trimEnd_idempotent s : trimEnd (trimEnd s) = trimEnd s.
Proof.
  induction s as [|c s IH] using rev_ind; [reflexivity|].
  rewrite trimEnd_snoc. destruct (is_whitespace c) eqn:Hc; [exact IH|].
  rewrite trimEnd_snoc, Hc. reflexivity.
Qed.

Lemma trimEnd_cons c s :
  is_whitespace c = false -> trimEnd (c :: s) = c :: trimEnd s.
Proof.
  intros Hc. induction s as [|d s IH] using rev_ind.
  - change [c] with ([] ++ [c]). rewrite trimEnd_snoc, Hc. reflexivity.
  - change (c :: s ++ [d]) with ((c :: s) ++ [d]). rewrite !trimEnd_snoc.
    destruct (is_whitespace d); [exact IH|reflexivity].
Qed.

Lemma trimEnd_anatomy s : exists w, blank w /\ s = trimEnd s ++ w.
Proof.
  induction s as [|c s (w & Hw & Hs)] using rev_ind.
  - exists []. split; reflexivity.
  - rewrite trimEnd_snoc. destruct (is_whitespace c) eqn:Hc.
    + exists (w ++ [c]). split.
      * apply blank_app; [exact Hw|]. unfold blank. cbn. rewrite Hc. reflexivity.
      * rewrite app_assoc, <- Hs. reflexivity.
    + exists []. split; [reflexivity|]. rewrite app_nil_r. reflexivity.
Qed.

(** A trimmed string is empty or starts with a character that is not
    whitespace. *)
Lemma trim_head s c r : trim s = c :: r -> is_whitespace c = false.
Proof.
  unfold trim. destruct (trimStart_anatomy s) as (_ & _ & _ & [-> | (d & t & -> & Hd)]).
  - discriminate.
  - rewrite (trimEnd_cons d t Hd). intros [= <- _]. exact Hd.
Qed.

Lemma trim_idempotent s : trim (trim s) = trim s.
Proof.
  unfold trim at 2 3.
  destruct (trimStart_anatomy s) as (_ & _ & _ & [-> | (d & t & -> & Hd)]);
    [reflexivity|].
  rewrite (trimEnd_cons d t Hd). unfold trim.
  rewrite (trimStart_keeps d _ Hd), (trimEnd_cons d _ Hd), trimEnd_idempotent.
  reflexivity.
Qed.

(** Whitespace around a string does not change what [trim] gives. *)
Lemma trim_blank_around w1 s w2 :
  blank w1 -> blank w2 -> trim (w1 ++ s ++ w2) = trim s.
Proof.
  intros H1 H2. unfold trim. rewrite (trimStart_blank w1 _ H1).
  destruct (trimStart_anatomy s) as (w & Hw & Hs & Hhead).
  rewrite Hs at 1. rewrite <- app_assoc, (trimStart_blank w _ Hw).
  destruct Hhead as [-> | (d & t & -> & Hd)].
  - cbn [app]. rewrite <- (app_nil_r w2), (trimStart_blank w2 [] H2). reflexivity.
  - change ((d :: t) ++ w2) with (d :: (t ++ w2)).
    rewrite (trimStart_keeps d _ Hd).
    change (d :: (t ++ w2)) with ((d :: t) ++ w2). apply trimEnd_blank. exact H2.
Qed.

Lemma trim_anatomy s : exists w1 w2, blank w1 /\ blank w2 /\ s = w1 ++ trim s ++ w2.
Proof.
  destruct (trimStart_anatomy s) as (w1 & H1 & Hs & _).
  destruct (trimEnd_anatomy (trimStart s)) as (w2 & H2 & Ht).
  exists w1, w2. split; [exact H1|]. split; [exact H2|].
  unfold trim. rewrite <- Ht. exact Hs.
Qed.

Lemma blank_no_char w c : blank w -> is_whitespace c = false -> ~ In c w.
Proof.
  unfold blank. intros Hw Hc Hin.
  rewrite forallb_forall in Hw. rewrite (Hw c Hin) in Hc. discriminate.
Qed.

(* ===================================================================== *)
(** * More on loadEnv: the shape of the entries, whitespace, concatenation *)
(* ===================================================================== *)

(** A string has no separator, or is a first part, the separator and a rest. *)
Lemma split_anatomy sep t :
  (~ In sep t /\ split sep t = [t])
  \/ (exists key rest, t = key ++ sep :: rest /\ ~ In sep key
                       /\ split sep t = key :: split sep rest).
Proof.
  induction t as [|c t IH]; [left; split; [intros []|reflexivity]|].
  cbn [split]. destruct (N.eqb_spec c sep) as [-> | Hc].
  - right. exists [], t. repeat split. intros [].
  - destruct IH as [[Hno ->] | (key & rest & -> & Hno & ->)].
    + left. split; [|reflexivity]. intros [H | H]; [congruence | exact (Hno H)].
    + right. exists (c :: key), rest. repeat split.
      intros [H | H]; [congruence | exact (Hno H)].
Qed.

Lemma split_parts_no_separator sep s l : In l (split sep s) -> ~ In sep l.
Proof.
  revert l. induction s as [|c s IH]; intros l; cbn [split].
  - intros [<- | []] [].
  - destruct (N.eqb_spec c sep) as [-> | Hc].
    + intros [<- | H]; [intros [] | exact (IH l H)].
    + destruct (split sep s) as [|part parts]; [intros [<- | []]; intros [H | []]; congruence|].
      intros [<- | H].
      * intros [Hin | Hin]; [congruence|]. exact (IH part (or_introl eq_refl) Hin).
      * exact (IH l (or_intror H)).
Qed.

Lemma split_app_separator sep a b :
  split sep (a ++ sep :: b) = split sep a ++ split sep b.
Proof.
  induction a as [|c a IH]; cbn [app split].
  - rewrite N.eqb_refl. reflexivity.
  - destruct (c =? sep)%N; rewrite IH; [reflexivity|].
    destruct (split_cons_part sep a) as (part & parts & ->). reflexivity.
Qed.

(** What a line does: nothing, or one assignment of a trimmed key. *)
Lemma envLine_cases env line :
  envLine env line = env
  \/ exists c key rest,
       trim line = (c :: key) ++ js "=" ++ rest
       /\ is_whitespace c = false /\ c <> 35%N
       /\ ~ In (N_of_ascii "=") (c :: key)
       /\ envLine env line = set_property env (trim (c :: key)) (trim rest).
Proof.
  unfold envLine. cbn zeta.
  destruct (bool_decide (trim line = [])) eqn:Hempty; [left; reflexivity|].
  destruct (startsWith (trim line) (js "#")) eqn:Hhash; [left; reflexivity|].
  cbn [orb].
  destruct (split_anatomy (N_of_ascii "=") (trim line))
    as [[_ ->] | (key & rest & Ht & Hno & ->)].
  - left. rewrite andb_false_r. reflexivity.
  - destruct key as [|c key]; [left; reflexivity|]. right.
    exists c, key, rest. split; [exact Ht|].
    split; [exact (trim_head _ _ _ Ht)|]. split.
    + rewrite Ht in Hhash. change (js "#") with [35%N] in Hhash.
      change ((c :: key) ++ N_of_ascii "=" :: rest)
        with (c :: (key ++ N_of_ascii "=" :: rest)) in Hhash.
      rewrite startsWith_unit in Hhash. apply N.eqb_neq. exact Hhash.
    + split; [exact Hno|].
      rewrite bool_decide_eq_false_2 by discriminate.
      destruct (split_cons_part (N_of_ascii "=") rest) as (part & parts & Hs).
      pose proof (join_split (N_of_ascii "=") rest) as Hjoin.
      rewrite Hs in *. cbn [negb andb length Nat.ltb Nat.leb].
      change (js "=") with [N_of_ascii "="]. rewrite Hjoin. reflexivity.
Qed.

Lemma envLine_keeps_tidy env line :
  ~ In (N_of_ascii "010") line ->
  (forall k v, env !! k = Some v -> tidy_key k /\ tidy_value v) ->
  forall k v, envLine env line !! k = Some v -> tidy_key k /\ tidy_value v.
Proof.
  intros Hlf Hinv k v.
  destruct (envLine_cases env line)
    as [-> | (c & key & rest & Ht & Hc & Hhash & Hnoeq & ->)]; [apply Hinv|].
  unfold set_property. destruct (bool_decide_reflect (trim (c :: key) = js "__proto__"))
    as [_ | Hproto]; [apply Hinv|].
  rewrite lookup_insert_Some. intros [[<- <-] | [_ Hold]]; [|exact (Hinv k v Hold)].
  assert (Hline : forall d, In d (trim line) -> d <> N_of_ascii "010").
  { intros d Hd ->. apply Hlf, trim_incl, Hd. }
  assert (Hk : trim (c :: key) = c :: trimEnd key).
  { unfold trim. rewrite (trimStart_keeps c key Hc). apply trimEnd_cons, Hc. }
  split.
  - split; [rewrite Hk; discriminate|]. split; [apply trim_idempotent|].
    split; [intros H; apply Hnoeq, trim_incl, H|].
    split.
    + intros H. apply trim_incl in H. apply (Hline (N_of_ascii "010")); [|reflexivity].
      rewrite Ht. apply in_or_app. left. exact H.
    + split; [|exact Hproto]. rewrite Hk. change (js "#") with [35%N].
      rewrite startsWith_unit. apply N.eqb_neq. exact Hhash.
  - split; [apply trim_idempotent|].
    intros H. apply trim_incl in H. apply (Hline (N_of_ascii "010")); [|reflexivity].
    rewrite Ht. apply in_or_app. right. apply in_or_app. right. exact H.
Qed.

Lemma fold_envLine_tidy lines : forall env,
  (forall l, In l lines -> ~ In (N_of_ascii "010") l) ->
  (forall k v, env !! k = Some v -> tidy_key k /\ tidy_value v) ->
  forall k v, fold_left envLine lines env !! k = Some v -> tidy_key k /\ tidy_value v.
Proof.
  induction lines as [|l lines IH]; intros env Hlines Hinv; [exact Hinv|].
  cbn [fold_left]. apply IH.
  - intros l' Hl'. apply Hlines. right. exact Hl'.
  - apply envLine_keeps_tidy; [|exact Hinv]. apply Hlines. left. reflexivity.
Qed.

Lemma loadEnv_tidy resolve readFileSync rootDir env k v :
  loadEnv resolve readFileSync rootDir = Returned env ->
  env !! k = Some v ->
  tidy_key k /\ tidy_value v.
Proof.
  unfold loadEnv. destruct (readFileSync _) as [envContent|]; [|discriminate].
  intros [= <-]. apply fold_envLine_tidy.
  - intros l Hl. exact (split_parts_no_separator _ _ _ Hl).
  - intros k' v' H. rewrite lookup_empty in H. discriminate.
Qed.

(** X4 (shape of the entries).  Whatever the file holds, every entry of the
    object [loadEnv] returns has a non-empty, trimmed key without ['='],
    without line feed, not starting with ['#'] and other than [__proto__],
    and a trimmed value without line feed. *)
Theorem loadEnv_entries_tidy resolve readFileSync rootDir env k v :
  loadEnv resolve readFileSync rootDir = Returned env ->
  env !! k = Some v ->
  tidy_key k /\ tidy_value v.
Proof. apply loadEnv_tidy. Qed.

Lemma loadEnv_entries_tidy_witness :
  tidy_key (js "KINTONE_DOMAIN") /\ tidy_value (js "a=b=c").
Proof.
  apply (loadEnv_entries_tidy sample_resolve sample_readFileSync (js "/app")
           {[ js "KINTONE_DOMAIN" := js "a=b=c" ]}).
  - vm_compute. reflexivity.
  - vm_compute. reflexivity.
Defined.

(** A line counts through its trimmed text only. *)
Lemma envLine_trim env l l' : trim l' = trim l -> envLine env l' = envLine env l.
Proof. intros H. unfold envLine. rewrite H. reflexivity. Qed.

Lemma fold_envLine_trim ls ls' :
  Forall2 (fun l l' => trim l' = trim l) ls ls' ->
  forall env, fold_left envLine ls' env = fold_left envLine ls env.
Proof.
  induction 1 as [|l l' ls ls' Hl _ IH]; intros env; [reflexivity|].
  cbn [fold_left]. rewrite (envLine_trim env l l' Hl). apply IH.
Qed.

(** The lines of the converted text are the lines of the text, all but the
    last with a carriage return at the end. *)
Lemma split_crlf s :
  Forall2 (fun l l' => l' = l \/ l' = l ++ [13%N]) (split 10 s) (split 10 (crlf s)).
Proof.
  induction s as [|c s IH]; [repeat constructor|].
  cbn [crlf flat_map split]. fold (crlf s).
  destruct (N.eqb_spec c 10) as [-> | Hc].
  - cbn [app split N.eqb Pos.eqb]. constructor; [right; reflexivity | exact IH].
  - cbn [app split]. destruct (N.eqb_spec c 10) as [|_]; [contradiction|].
    destruct (split_cons_part 10 s) as (p & ps & Hs).
    destruct (split_cons_part 10 (crlf s)) as (p' & ps' & Hs').
    rewrite Hs, Hs' in *. inversion IH as [|? ? ? ? Hl Hls]; subst.
    constructor; [|exact Hls].
    destruct Hl as [-> | ->]; [left | right]; reflexivity.
Qed.

(** X5 (whitespace and line endings).  Whitespace before and after a line
    does not change what the line does; in particular a file with CR LF line
    endings loads to the same object as the file with LF line endings. *)
Theorem loadEnv_line_padding resolve readFileSync readFileSync' rootDir envContent :
  (forall env w1 line w2,
     blank w1 -> blank w2 -> envLine env (w1 ++ line ++ w2) = envLine env line)
  /\ (readFileSync (resolve rootDir (js ".env")) = Some envContent ->
      readFileSync' (resolve rootDir (js ".env")) = Some (crlf envContent) ->
      loadEnv resolve readFileSync' rootDir = loadEnv resolve readFileSync rootDir).
Proof.
  split.
  - intros env w1 line w2 H1 H2. apply envLine_trim, trim_blank_around; assumption.
  - intros Hread Hread'. unfold loadEnv. rewrite Hread, Hread'. f_equal.
    apply fold_envLine_trim.
    eapply Forall2_impl; [apply split_crlf|].
    intros l l' [-> | ->]; [reflexivity|].
    rewrite <- (app_nil_l (l ++ [13%N])). apply trim_blank_around; reflexivity.
Qed.

Lemma loadEnv_line_padding_witness :
  loadEnv sample_resolve
    (fun path => if bool_decide (path = js "/app/.env") then Some (crlf sample_env) else None)
    (js "/app")
  = loadEnv sample_resolve sample_readFileSync (js "/app").
Proof.
  apply (proj2 (loadEnv_line_padding sample_resolve sample_readFileSync
                  (fun path => if bool_decide (path = js "/app/.env")
                               then Some (crlf sample_env) else None)
                  (js "/app") sample_env)); reflexivity.
Defined.

Lemma envLine_union env line : envLine env line = envLine ∅ line ∪ env.
Proof.
  unfold envLine. cbn zeta.
  destruct (_ || _); [rewrite (left_id_L ∅ (∪)); reflexivity|].
  destruct (split _ _) as [|key valueParts]; [rewrite (left_id_L ∅ (∪)); reflexivity|].
  destruct (_ && _); [|rewrite (left_id_L ∅ (∪)); reflexivity].
  unfold set_property. destruct (bool_decide _);
    [rewrite (left_id_L ∅ (∪)); reflexivity|].
  rewrite insert_empty, <- insert_union_singleton_l. reflexivity.
Qed.

Lemma fold_envLine_union lines : forall env,
  fold_left envLine lines env = fold_left envLine lines ∅ ∪ env.
Proof.
  induction lines as [|l lines IH]; intros env; cbn [fold_left].
  - rewrite (left_id_L ∅ (∪)). reflexivity.
  - rewrite (IH (envLine env l)), (IH (envLine ∅ l)), (envLine_union env l).
    rewrite (assoc_L (∪)). reflexivity.
Qed.

(** X6 (one file after another).  The file made of a first text, a line feed
    and a second text loads to the entries of the second over those of the
    first: a key set in both has the value of the second. *)
Theorem loadEnv_concatenation resolve readFileSync1 readFileSync2 readFileSync12
    rootDir content1 content2 :
  readFileSync1 (resolve rootDir (js ".env")) = Some content1 ->
  readFileSync2 (resolve rootDir (js ".env")) = Some content2 ->
  readFileSync12 (resolve rootDir (js ".env"))
    = Some (content1 ++ [N_of_ascii "010"] ++ content2) ->
  exists env1 env2 env12 : env_object,
    loadEnv resolve readFileSync1 rootDir = Returned env1
    /\ loadEnv resolve readFileSync2 rootDir = Returned env2
    /\ loadEnv resolve readFileSync12 rootDir = Returned env12
    /\ forall k, env12 !! k = match env2 !! k with
                              | Some v => Some v
                              | None => env1 !! k
                              end.
Proof.
  intros H1 H2 H12. unfold loadEnv. rewrite H1, H2, H12.
  eexists _, _, _. split; [reflexivity|]. split; [reflexivity|].
  split; [reflexivity|]. intros k.
  cbn [app]. rewrite split_app_separator, fold_left_app, fold_envLine_union.
  rewrite lookup_union.
  destruct (fold_left envLine (split (N_of_ascii "010") content2) ∅ !! k);
    destruct (fold_left envLine (split (N_of_ascii "010") content1) ∅ !! k);
    reflexivity.
Qed.

Lemma loadEnv_concatenation_witness :
  exists env1 env2 env12 : env_object,
    loadEnv sample_resolve (fun _ => Some (js "A=1")) (js "/app") = Returned env1
    /\ loadEnv sample_resolve (fun _ => Some (js "A=2")) (js "/app") = Returned env2
    /\ loadEnv sample_resolve
         (fun _ => Some (js "A=1" ++ [N_of_ascii "010"] ++ js "A=2")) (js "/app")
       = Returned env12
    /\ forall k, env12 !! k = match env2 !! k with
                              | Some v => Some v
                              | None => env1 !! k
                              end.
Proof.
  apply (loadEnv_concatenation sample_resolve (fun _ => Some (js "A=1"))
           (fun _ => Some (js "A=2"))
           (fun _ => Some (js "A=1" ++ [N_of_ascii "010"] ++ js "A=2"))
           (js "/app") (js "A=1") (js "A=2")); reflexivity.
Defined.

(* ===================================================================== *)
(** * getKintoneCredentials, getRootDir, createKintoneClient *)
(* ===================================================================== *)

Lemma falsy_false v : falsy v = false <-> exists s, v = Some s /\ s <> [].
Proof.
  destruct v as [s|]; cbn.
  - rewrite bool_decide_eq_false. split; [eauto | intros (s' & [= <-] & H); exact H].
  - split; [discriminate | intros (s' & [=] & _)].
Qed.

(** What [getKintoneCredentials] returns, and when it gives up. *)
Lemma getKintoneCredentials_cases env :
  match getKintoneCredentials env with
  | Completes c =>
      env !! js "KINTONE_DOMAIN" = Some (domain c) /\ domain c <> []
      /\ env !! js "KINTONE_USERNAME" = Some (username c) /\ username c <> []
      /\ env !! js "KINTONE_PASSWORD" = Some (password c) /\ password c <> []
      /\ baseUrl c = js "https://" ++ domain c
  | ProcessExit code _ =>
      code = 1
      /\ exists k, In k [js "KINTONE_DOMAIN"; js "KINTONE_USERNAME"; js "KINTONE_PASSWORD"]
                   /\ (env !! k = None \/ env !! k = Some [])
  end.
Proof.
  unfold getKintoneCredentials. cbn zeta.
  assert (Hfalsy : forall k, falsy (env !! k) = true ->
                     env !! k = None \/ env !! k = Some []).
  { intros k. destruct (env !! k) as [s|]; cbn; [|tauto].
    rewrite bool_decide_eq_true. intros ->. tauto. }
  destruct (falsy (env !! js "KINTONE_DOMAIN")) eqn:Hd; cbn [orb].
  { split; [reflexivity|]. exists (js "KINTONE_DOMAIN"). split; [left; reflexivity|auto]. }
  destruct (falsy (env !! js "KINTONE_USERNAME")) eqn:Hu; cbn [orb].
  { split; [reflexivity|]. exists (js "KINTONE_USERNAME").
    split; [right; left; reflexivity|auto]. }
  destruct (falsy (env !! js "KINTONE_PASSWORD")) eqn:Hp; cbn [orb].
  { split; [reflexivity|]. exists (js "KINTONE_PASSWORD").
    split; [right; right; left; reflexivity|auto]. }
  apply falsy_false in Hd as (d & -> & Hd), Hu as (u & -> & Hu), Hp as (pw & -> & Hp).
  cbn. repeat split; assumption.
Qed.

(** X7 (credentials of a file).  For the object of a loaded file,
    [getKintoneCredentials] ends the process with code 1 exactly when one of
    [KINTONE_DOMAIN], [KINTONE_USERNAME], [KINTONE_PASSWORD] is missing or set
    to the empty string; otherwise the credentials are the three entries, each
    non-empty, trimmed and on one line, and [baseUrl] is ["https://"] followed
    by the domain. *)
Theorem credentials_of_env_file resolve readFileSync rootDir env :
  loadEnv resolve readFileSync rootDir = Returned env ->
  match getKintoneCredentials env with
  | Completes c =>
      (env !! js "KINTONE_DOMAIN" = Some (domain c)
       /\ env !! js "KINTONE_USERNAME" = Some (username c)
       /\ env !! js "KINTONE_PASSWORD" = Some (password c))
      /\ (domain c <> [] /\ username c <> [] /\ password c <> [])
      /\ (tidy_value (domain c) /\ tidy_value (username c) /\ tidy_value (password c))
      /\ baseUrl c = js "https://" ++ domain c
  | ProcessExit code _ =>
      code = 1
      /\ exists k, In k [js "KINTONE_DOMAIN"; js "KINTONE_USERNAME"; js "KINTONE_PASSWORD"]
                   /\ (env !! k = None \/ env !! k = Some [])
  end.
Proof.
  intros Hload. pose proof (getKintoneCredentials_cases env) as H.
  destruct (getKintoneCredentials env) as [c|code err]; [|exact H].
  destruct H as (Hd & Hd' & Hu & Hu' & Hp & Hp' & Hb).
  repeat split; try assumption;
    first [ eapply (loadEnv_tidy _ _ _ _ _ _ Hload Hd)
          | eapply (loadEnv_tidy _ _ _ _ _ _ Hload Hu)
          | eapply (loadEnv_tidy _ _ _ _ _ _ Hload Hp) ].
Qed.

Lemma credentials_of_env_file_witness :
  match getKintoneCredentials credentials_env with
  | Completes c =>
      (credentials_env !! js "KINTONE_DOMAIN" = Some (domain c)
       /\ credentials_env !! js "KINTONE_USERNAME" = Some (username c)
       /\ credentials_env !! js "KINTONE_PASSWORD" = Some (password c))
      /\ (domain c <> [] /\ username c <> [] /\ password c <> [])
      /\ (tidy_value (domain c) /\ tidy_value (username c) /\ tidy_value (password c))
      /\ baseUrl c = js "https://" ++ domain c
  | ProcessExit code _ =>
      code = 1
      /\ exists k, In k [js "KINTONE_DOMAIN"; js "KINTONE_USERNAME"; js "KINTONE_PASSWORD"]
                   /\ (credentials_env !! k = None \/ credentials_env !! k = Some [])
  end.
Proof.
  apply (credentials_of_env_file sample_resolve (fun _ => Some credentials_file)
           (js "/app") credentials_env).
  reflexivity.
Defined.

Example credentials_of_sample_file :
  getKintoneCredentials credentials_env
  = Completes {| domain := js "example.cybozu.com"; username := js "alice";
                 password := js "p=w"; baseUrl := js "https://example.cybozu.com" |}.
Proof. vm_compute. reflexivity. Qed.

Section RootDirFacts.

Variable fileURLToPath : jsstring -> jsstring.
Variable dirname : jsstring -> jsstring.
Variable resolve : jsstring -> jsstring -> jsstring.
Variable existsSync : jsstring -> bool.

Lemma findRoot_done callerDir currentDir i :
  10 <= i ->
  findRoot resolve existsSync callerDir currentDir i
  = resolve callerDir (js "../../../..").
Proof.
  intros Hi. funelim (findRoot resolve existsSync callerDir currentDir i).
  - pose proof (proj1 (Z.ltb_lt _ _) e). lia.
  - reflexivity.
Qed.

Lemma findRoot_step callerDir currentDir i :
  i < 10 ->
  findRoot resolve existsSync callerDir currentDir i
  = if existsSync (resolve currentDir (js "package.json")) then currentDir
    else findRoot resolve existsSync callerDir (resolve currentDir (js "..")) (i + 1).
Proof.
  intros Hi. funelim (findRoot resolve existsSync callerDir currentDir i).
  - reflexivity.
  - pose proof (proj1 (Z.ltb_ge _ _) e). lia.
Qed.

Lemma ancestor_next k dir :
  ancestor resolve k (resolve dir (js "..")) = ancestor resolve (S k) dir.
Proof.
  unfold ancestor.
  exact (eq_sym (Nat.iter_succ_r k (fun d => resolve d (js "..")) dir)).
Qed.

Lemma findRoot_found callerDir (k : nat) : forall currentDir i,
  0 <= i -> i + Z.of_nat k < 10 ->
  existsSync (resolve (ancestor resolve k currentDir) (js "package.json")) = true ->
  (forall j, (j < k)%nat ->
     existsSync (resolve (ancestor resolve j currentDir) (js "package.json")) = false) ->
  findRoot resolve existsSync callerDir currentDir i = ancestor resolve k currentDir.
Proof.
  induction k as [|k IH]; intros currentDir i Hi Hk Hhere Hbelow.
  - rewrite findRoot_step by lia.
    change (ancestor resolve 0 currentDir) with currentDir in Hhere.
    rewrite Hhere. reflexivity.
  - rewrite findRoot_step by lia.
    rewrite (Hbelow O ltac:(lia) : existsSync (resolve currentDir _) = false).
    rewrite <- ancestor_next. apply IH; [lia|lia| |].
    + rewrite ancestor_next. exact Hhere.
    + intros j Hj. rewrite ancestor_next. apply Hbelow. lia.
Qed.

Lemma findRoot_fallback callerDir (n : nat) : forall currentDir i,
  Z.to_nat (10 - i) = n ->
  (forall j, (j < n)%nat ->
     existsSync (resolve (ancestor resolve j currentDir) (js "package.json")) = false) ->
  findRoot resolve existsSync callerDir currentDir i
  = resolve callerDir (js "../../../..").
Proof.
  induction n as [|n IH]; intros currentDir i Hn Hnone.
  - apply findRoot_done. lia.
  - rewrite findRoot_step by lia.
    rewrite (Hnone O ltac:(lia) : existsSync (resolve currentDir _) = false).
    apply IH; [lia|]. intros j Hj. rewrite ancestor_next. apply Hnone. lia.
Qed.

End RootDirFacts.

(** X8 (the root directory).  [getRootDir] looks for [package.json] in the
    directory of the calling script and in its nine nearest ancestors, and
    returns the nearest of these ten directories that holds one.  When none
    does, it returns [resolve(callerDir, "../../../..")], whatever lies above
    the tenth directory. *)
Theorem getRootDir_nearest_package fileURLToPath dirname resolve existsSync
    importMetaUrl :
  let callerDir := dirname (fileURLToPath importMetaUrl) in
  let holds k := existsSync (resolve (ancestor resolve k callerDir) (js "package.json")) in
  (forall k, (k < 10)%nat -> holds k = true ->
     (forall j, (j < k)%nat -> holds j = false) ->
     getRootDir fileURLToPath dirname resolve existsSync importMetaUrl
     = ancestor resolve k callerDir)
  /\ ((forall j, (j < 10)%nat -> holds j = false) ->
      getRootDir fileURLToPath dirname resolve existsSync importMetaUrl
      = resolve callerDir (js "../../../..")).
Proof.
  intros callerDir holds. unfold getRootDir. fold callerDir. split.
  - intros k Hk Hhere Hbelow. apply findRoot_found; [lia|lia|exact Hhere|exact Hbelow].
  - intros Hnone. apply (findRoot_fallback _ _ _ 10); [reflexivity|exact Hnone].
Qed.

Lemma getRootDir_nearest_package_witness :
  getRootDir (fun url => url) sample_dirname sample_parent sample_existsSync
    (js "/repo/scripts/app-management/deploy/deploy-app.mjs")
  = js "/repo".
Proof.
  apply (proj1 (getRootDir_nearest_package (fun url => url) sample_dirname sample_parent
                  sample_existsSync
                  (js "/repo/scripts/app-management/deploy/deploy-app.mjs")) 3%nat).
  - lia.
  - reflexivity.
  - intros j Hj. destruct j as [|[|[|j]]]; [reflexivity ..|lia].
Defined.

(** X9 (client construction).  When [createKintoneClient] yields a client,
    the .env file of the root directory was read, the three credentials are
    its entries, and the client is the one the library constructs for
    [baseUrl = "https://" + domain] and these user name and password.  When it
    ends the process instead, the exit code is 1 and the library plays no
    part: the same exit happens whatever the import would give. *)
Theorem createKintoneClient_config fileURLToPath dirname resolve existsSync
    readFileSync importKintoneRestAPIClient importMetaUrl :
  let rootDir := getRootDir fileURLToPath dirname resolve existsSync importMetaUrl in
  let result :=
    createKintoneClient fileURLToPath dirname resolve existsSync readFileSync
      importKintoneRestAPIClient importMetaUrl in
  (forall client c,
     result = Completes (Fulfilled (client, c)) ->
     exists env KintoneRestAPIClient,
       loadEnv resolve readFileSync rootDir = Returned env
       /\ env !! js "KINTONE_DOMAIN" = Some (domain c)
       /\ env !! js "KINTONE_USERNAME" = Some (username c)
       /\ env !! js "KINTONE_PASSWORD" = Some (password c)
       /\ importKintoneRestAPIClient = Fulfilled KintoneRestAPIClient
       /\ KintoneRestAPIClient
            {| config_baseUrl := js "https://" ++ domain c;
               auth_username := username c;
               auth_password := password c |} = Fulfilled client)
  /\ (forall code stderr,
        result = ProcessExit code stderr ->
        code = 1
        /\ forall otherImport,
             createKintoneClient fileURLToPath dirname resolve existsSync readFileSync
               otherImport importMetaUrl = ProcessExit code stderr).
Proof.
  intros rootDir result. subst result. unfold createKintoneClient. fold rootDir.
  destruct (loadEnv resolve readFileSync rootDir) as [env|code0 err0] eqn:Hload.
  - pose proof (getKintoneCredentials_cases env) as Hc.
    destruct (getKintoneCredentials env) as [c0|code0 err0].
    + destruct Hc as (Hd & _ & Hu & _ & Hp & _ & Hb). split; [|discriminate].
      intros client c Heq.
      destruct importKintoneRestAPIClient as [K|e]; [|discriminate].
      destruct (K _) as [client0|e] eqn:HK; [|discriminate].
      injection Heq as <- <-. exists env, K. rewrite <- Hb. auto 10.
    + split; [discriminate|]. intros code stderr [= <- <-].
      split; [apply Hc | reflexivity].
  - split; [discriminate|]. intros code stderr [= <- <-].
    unfold loadEnv in Hload. destruct (readFileSync _); [discriminate|].
    injection Hload as <- _. split; reflexivity.
Qed.

Lemma createKintoneClient_config_witness :
  exists env KintoneRestAPIClient,
    loadEnv sample_parent (fun _ => Some credentials_file) (js "/repo") = Returned env
    /\ env !! js "KINTONE_DOMAIN" = Some (js "example.cybozu.com")
    /\ env !! js "KINTONE_USERNAME" = Some (js "alice")
    /\ env !! js "KINTONE_PASSWORD" = Some (js "p=w")
    /\ Fulfilled (fun _ : ClientConfig => Fulfilled (scripted [] (report "SUCCESS")))
       = Fulfilled KintoneRestAPIClient
    /\ KintoneRestAPIClient
         {| config_baseUrl := js "https://" ++ js "example.cybozu.com";
            auth_username := js "alice";
            auth_password := js "p=w" |} = Fulfilled (scripted [] (report "SUCCESS")).
Proof.
  apply (proj1 (createKintoneClient_config (fun url => url) sample_dirname sample_parent
                  sample_existsSync (fun _ => Some credentials_file)
                  (Fulfilled (fun _ => Fulfilled (scripted [] (report "SUCCESS"))))
                  (js "/repo/scripts/app-management/deploy/deploy-app.mjs"))
           (scripted [] (report "SUCCESS"))
           {| domain := js "example.cybozu.com"; username := js "alice";
              password := js "p=w"; baseUrl := js "https://example.cybozu.com" |}).
  vm_compute. reflexivity.
Defined.

(* ===================================================================== *)
(** * getStatusIcon *)
(* ===================================================================== *)

(** X10 (status icons).  The icon tells the class of a status as the waiter
    sees it: the check mark for [SUCCESS] alone, the cross for [FAIL] alone,
    the no-entry sign for [CANCEL] alone, the hourglass for [PROCESSING]
    alone, the question mark for everything else; so a status gets the
    hourglass or the question mark exactly when the waiter keeps polling on
    it. *)
Theorem getStatusIcon_classes (v : value) :
  (getStatusIcon v = [9989%N] <-> v = VStr (js "SUCCESS"))
  /\ (getStatusIcon v = [9203%N] <-> v = VStr (js "PROCESSING"))
  /\ (getStatusIcon v = [10060%N] <-> v = VStr (js "FAIL"))
  /\ (getStatusIcon v = [55357%N; 57003%N] <-> v = VStr (js "CANCEL"))
  /\ (terminal v = false <-> getStatusIcon v = [9203%N] \/ getStatusIcon v = [10067%N]).
Proof.
  unfold getStatusIcon, terminal.
  destruct (strict_eq_str v (js "SUCCESS")) eqn:Hs;
    [apply strict_eq_str_true in Hs; subst v; cbn;
     repeat split; try discriminate; try reflexivity; intros [|]; discriminate|].
  destruct (strict_eq_str v (js "PROCESSING")) eqn:Hp;
    [apply strict_eq_str_true in Hp; subst v; cbn;
     repeat split; try discriminate; try reflexivity; auto|].
  destruct (strict_eq_str v (js "FAIL")) eqn:Hf;
    [apply strict_eq_str_true in Hf; subst v; cbn;
     repeat split; try discriminate; try reflexivity; intros [|]; discriminate|].
  destruct (strict_eq_str v (js "CANCEL")) eqn:Hc;
    [apply strict_eq_str_true in Hc; subst v; cbn;
     repeat split; try discriminate; try reflexivity; intros [|]; discriminate|].
  cbn [orb].
  repeat split; try discriminate; try (intros ->; discriminate); auto.
Qed.

(* ===================================================================== *)
(** * The two loaders *)
(* ===================================================================== *)

Lemma getApps_envLine_agrees env line :
  startsWith (trim line) (js "#") = false ->
  startsWith (trim line) (js "=") = false ->
  GetApps.envLine env line = envLine env line.
Proof.
  intros Hhash Hkey.
  destruct (trim_anatomy line) as (w1 & w2 & H1 & H2 & Hline).
  assert (Heq : is_whitespace (N_of_ascii "=") = false) by reflexivity.
  destruct (split_anatomy (N_of_ascii "=") (trim line))
    as [[Hno Hs] | (key & rest & Ht & Hno & Hs)].
  - assert (Hnone : ~ In (N_of_ascii "=") line).
    { rewrite Hline. intros H. apply in_app_or in H as [H | H];
        [exact (blank_no_char _ _ H1 Heq H)|].
      apply in_app_or in H as [H | H]; [exact (Hno H) | exact (blank_no_char _ _ H2 Heq H)]. }
    rewrite (envLine_ignores env line) by auto.
    unfold GetApps.envLine. rewrite (split_no_separator _ _ Hnone).
    rewrite andb_false_r. reflexivity.
  - destruct key as [|c key].
    { rewrite Ht in Hkey. change (js "=") with [61%N] in Hkey.
      cbn [app] in Hkey. rewrite startsWith_unit in Hkey. discriminate Hkey. }
    unfold envLine. cbn zeta. rewrite Hs, Hhash.
    rewrite (bool_decide_eq_false_2 (trim line = [])) by (rewrite Ht; discriminate).
    rewrite (bool_decide_eq_false_2 (c :: key = [])) by discriminate.
    cbn [orb negb andb].
    unfold GetApps.envLine. rewrite Hline, Ht.
    replace (w1 ++ ((c :: key) ++ N_of_ascii "=" :: rest) ++ w2)
      with ((w1 ++ c :: key) ++ N_of_ascii "=" :: (rest ++ w2))
      by (rewrite <- !app_assoc; reflexivity).
    rewrite split_first.
    2:{ intros H. apply in_app_or in H as [H | H];
          [exact (blank_no_char _ _ H1 Heq H) | exact (Hno H)]. }
    rewrite (bool_decide_eq_false_2 (w1 ++ c :: key = []))
      by (destruct w1; discriminate).
    cbn [negb andb].
    destruct (split_cons_part (N_of_ascii "=") rest) as (p & ps & Hp).
    destruct (split_cons_part (N_of_ascii "=") (rest ++ w2)) as (p' & ps' & Hp').
    pose proof (join_split (N_of_ascii "=") rest) as Hj.
    pose proof (join_split (N_of_ascii "=") (rest ++ w2)) as Hj'.
    rewrite Hp, Hp' in *. cbn [length Nat.ltb Nat.leb].
    change (js "=") with [N_of_ascii "="]. rewrite Hj, Hj'.
    rewrite <- (app_nil_r (w1 ++ c :: key)), <- app_assoc.
    rewrite (trim_blank_around w1 (c :: key) [] H1 eq_refl).
    rewrite <- (app_nil_l (rest ++ w2)), (trim_blank_around [] rest w2 eq_refl H2).
    reflexivity.
Qed.

Lemma fold_envLine_agrees lines : forall env,
  (forall l, In l lines -> forall env, GetApps.envLine env l = envLine env l) ->
  fold_left GetApps.envLine lines env = fold_left envLine lines env.
Proof.
  induction lines as [|l lines IH]; intros env Hall; [reflexivity|].
  cbn [fold_left]. rewrite (Hall l (or_introl eq_refl)).
  apply IH. intros l' Hl'. apply Hall. right. exact Hl'.
Qed.

(** X11 (the two loaders).  The loader of [get-apps.mjs], which neither trims
    a line first nor skips comments, does to the object what the loader of
    [env.mjs] does on every line whose trimmed text starts with neither ['#']
    nor ['=']; so the two load a file of such lines to the same object.  They
    differ on the other lines: the stand-alone loader turns a comment line
    with an ['='] into an entry. *)
Theorem getApps_loader_agrees resolve readFileSync rootDir envContent :
  (forall env line,
     startsWith (trim line) (js "#") = false ->
     startsWith (trim line) (js "=") = false ->
     GetApps.envLine env line = envLine env line)
  /\ (readFileSync (resolve rootDir (js ".env")) = Some envContent ->
      (forall l, In l (split (N_of_ascii "010") envContent) ->
         startsWith (trim l) (js "#") = false /\ startsWith (trim l) (js "=") = false) ->
      GetApps.loadEnv resolve readFileSync rootDir = loadEnv resolve readFileSync rootDir)
  /\ (GetApps.envLine ∅ (js "#KEY=x") = {[ js "#KEY" := js "x" ]}
      /\ envLine ∅ (js "#KEY=x") = ∅).
Proof.
  split; [exact getApps_envLine_agrees|]. split.
  - intros Hread Hlines. unfold GetApps.loadEnv, loadEnv. rewrite Hread. f_equal.
    apply fold_envLine_agrees. intros l Hl env.
    destruct (Hlines l Hl) as [Hh Hk]. apply getApps_envLine_agrees; assumption.
  - split; vm_compute; reflexivity.
Qed.

Lemma getApps_loader_agrees_witness :
  GetApps.loadEnv sample_resolve
    (fun _ => Some (js "A=1" ++ [N_of_ascii "010"] ++ js " B = x=y ")) (js "/app")
  = loadEnv sample_resolve
      (fun _ => Some (js "A=1" ++ [N_of_ascii "010"] ++ js " B = x=y ")) (js "/app").
Proof.
  apply (proj1 (proj2 (getApps_loader_agrees sample_resolve
                         (fun _ => Some (js "A=1" ++ [N_of_ascii "010"] ++ js " B = x=y "))
                         (js "/app")
                         (js "A=1" ++ [N_of_ascii "010"] ++ js " B = x=y ")))).
  - reflexivity.
  - intros l [<- | [<- | []]]; split; reflexivity.
Defined.

(* ===================================================================== *)
(** * The deploy script *)
(* ===================================================================== *)

Lemma outcome_success client appId maxAttempts intervalMs served o served' t :
  waitForDeploy client appId maxAttempts intervalMs served = (Fulfilled o, served', t) ->
  success o = true -> status o = VStr (js "SUCCESS").
Proof.
  intros Hrun Hs.
  destruct (waitForDeploy_cases client appId maxAttempts intervalMs served)
    as [[_ Heq] | (k & _ & _ & Hstop & Heq)]; rewrite Heq in Hrun.
  - injection Hrun as <- _ _. discriminate.
  - injection Hrun as Hv _ _.
    destruct (verdict_status _ _ Hv Hstop) as (r & _ & -> & Hsucc & _).
    rewrite Hsucc in Hs. apply strict_eq_str_true. exact Hs.
Qed.

Lemma waits_app t1 t2 : waits (t1 ++ t2) = waits t1 ++ waits t2.
Proof. unfold waits. apply flat_map_app. Qed.

Lemma waits_Wait t : waits (List.map Wait t) = t.
Proof. induction t as [|ev t IH]; [reflexivity|]. cbn. f_equal. exact IH. Qed.

Lemma deploys_app t1 t2 : deploys (t1 ++ t2) = (deploys t1 + deploys t2)%nat.
Proof. unfold deploys. rewrite List.filter_app, List.length_app. reflexivity. Qed.

Lemma deploys_Wait t : deploys (List.map Wait t) = 0%nat.
Proof. induction t as [|ev t IH]; [reflexivity|]. exact IH. Qed.

Lemma waits_console to args t : waits (Console to args :: t) = waits t.
Proof. reflexivity. Qed.

Lemma waits_deploy apps revert answer t :
  waits (DeployApp apps revert answer :: t) = waits t.
Proof. reflexivity. Qed.

Lemma deploys_console to args t : deploys (Console to args :: t) = deploys t.
Proof. reflexivity. Qed.

Lemma deploys_deploy apps revert answer t :
  deploys (DeployApp apps revert answer :: t) = S (deploys t).
Proof. reflexivity. Qed.

(** Counting the waits and the deployments of a list of steps given by its
    elements. *)
Ltac count_steps :=
  cbn [app fst snd];
  repeat (rewrite ?waits_app, ?deploys_app, ?waits_Wait, ?deploys_Wait,
            ?waits_console, ?waits_deploy, ?deploys_console, ?deploys_deploy;
          cbn [app]);
  change (waits []) with (@nil event) in *;
  change (deploys []) with 0%nat in *.

Section DeployAppFacts.

Variable fileURLToPath : jsstring -> jsstring.
Variable dirname : jsstring -> jsstring.
Variable resolve : jsstring -> jsstring -> jsstring.
Variable existsSync : jsstring -> bool.
Variable readFileSync : jsstring -> option jsstring.
Variable importKintoneRestAPIClient : settled (ClientConfig -> settled Client).
Variable importMetaUrl : jsstring.
Variable deployApp : Client -> list value -> bool -> settled unit.
Variable JSON_stringify : value -> value.
Variable TypeError : value -> value.

Lemma failed_steps error :
  waits (failed JSON_stringify TypeError error).2 = []
  /\ deploys (failed JSON_stringify TypeError error).2 = 0%nat
  /\ forall o, (failed JSON_stringify TypeError error).1 <> Resolved o.
Proof.
  unfold failed.
  destruct error; cbn [fst snd]; try destruct (truthy _); repeat split; discriminate.
Qed.

Lemma failed_end error :
  match (failed JSON_stringify TypeError error).1 with
  | Resolved _ => False
  | Unhandled e => e = TypeError error /\ (error = VUndefined \/ error = VNull)
  | ProcessExited code => code = 1
  end.
Proof. unfold failed. destruct error; cbn; auto. Qed.

End DeployAppFacts.

Lemma createKintoneClient_exit_code fileURLToPath dirname resolve existsSync
    readFileSync importKintoneRestAPIClient importMetaUrl code stderr :
  createKintoneClient fileURLToPath dirname resolve existsSync readFileSync
    importKintoneRestAPIClient importMetaUrl = ProcessExit code stderr ->
  code = 1.
Proof.
  unfold createKintoneClient.
  destruct (loadEnv resolve readFileSync _) as [env|code0 err0] eqn:Hload.
  - pose proof (getKintoneCredentials_cases env) as Hc.
    destruct (getKintoneCredentials env) as [c0|code0 err0]; [discriminate|].
    intros [= <- _]. apply Hc.
  - intros [= <- _]. unfold loadEnv in Hload.
    destruct (readFileSync _); [discriminate|]. injection Hload as <- _. reflexivity.
Qed.

Section MainFacts.

Variable fileURLToPath : jsstring -> jsstring.
Variable dirname : jsstring -> jsstring.
Variable resolve : jsstring -> jsstring -> jsstring.
Variable existsSync : jsstring -> bool.
Variable readFileSync : jsstring -> option jsstring.
Variable importKintoneRestAPIClient : settled (ClientConfig -> settled Client).
Variable importMetaUrl : jsstring.
Variable deployApp : Client -> list value -> bool -> settled unit.
Variable JSON_stringify : value -> value.
Variable TypeError : value -> value.

(** How [main] ends. *)
Lemma main_end appId revert noWait served :
  match (main fileURLToPath dirname resolve existsSync readFileSync
           importKintoneRestAPIClient importMetaUrl deployApp JSON_stringify TypeError
           appId revert noWait served).1.1 with
  | Resolved o =>
      success o = true
      /\ status o = VStr (if revert then js "REVERTED"
                          else if noWait then js "PROCESSING" else js "SUCCESS")
  | ProcessExited code => code = 1
  | Unhandled e =>
      createKintoneClient fileURLToPath dirname resolve existsSync readFileSync
        importKintoneRestAPIClient importMetaUrl = Completes (Rejected e)
      \/ exists error, (error = VUndefined \/ error = VNull) /\ e = TypeError error
  end.
Proof.
  unfold main.
  pose proof (createKintoneClient_exit_code fileURLToPath dirname resolve existsSync
                readFileSync importKintoneRestAPIClient importMetaUrl) as Hexit.
  destruct (createKintoneClient _ _ _ _ _ _ _) as [[[client creds]|e]|code err];
    [|left; reflexivity|exact (Hexit code err eq_refl)].
  destruct (deployApp client _ revert) as [[]|error].
  - destruct revert; [split; reflexivity|].
    destruct noWait; [split; reflexivity|].
    destruct (waitForDeploy client (VStr appId) None None served)
      as [[[result|error] served'] t] eqn:Hwait.
    + destruct (success result) eqn:Hs; [|reflexivity]. cbn [fst].
      split; [exact Hs | exact (outcome_success _ _ _ _ _ _ _ _ Hwait Hs)].
    + pose proof (failed_end JSON_stringify TypeError error) as H.
      destruct (failed JSON_stringify TypeError error) as [[o|e|code] t']; cbn [fst] in *;
        [contradiction | right; exists error; tauto | exact H].
  - pose proof (failed_end JSON_stringify TypeError error) as H.
    destruct (failed JSON_stringify TypeError error) as [[o|e|code] t']; cbn [fst] in *;
      [contradiction | right; exists error; tauto | exact H].
Qed.

(** What [main] asks of the remote. *)
Lemma main_polling appId revert noWait served :
  let t := (main fileURLToPath dirname resolve existsSync readFileSync
           importKintoneRestAPIClient importMetaUrl deployApp JSON_stringify TypeError
           appId revert noWait served).2 in
  (requests (waits t) <= 30)%nat
  /\ (suspensions (waits t) <= requests (waits t))%nat
  /\ delay (waits t) = 1000 * Z.of_nat (suspensions (waits t))
  /\ (main fileURLToPath dirname resolve existsSync readFileSync
           importKintoneRestAPIClient importMetaUrl deployApp JSON_stringify TypeError
           appId revert noWait served).1.2 = (served + requests (waits t))%nat
  /\ (revert || noWait = true -> waits t = [])
  /\ (deploys t <= 1)%nat
  /\ (waits t <> [] -> deploys t = 1%nat).
Proof.
  assert (Hquiet : forall (t : list step) (d : bool),
            waits t = [] -> (deploys t <= 1)%nat ->
            (requests (waits t) <= 30)%nat
            /\ (suspensions (waits t) <= requests (waits t))%nat
            /\ delay (waits t) = 1000 * Z.of_nat (suspensions (waits t))
            /\ served = (served + requests (waits t))%nat
            /\ (d = true -> waits t = [])
            /\ (deploys t <= 1)%nat
            /\ (waits t <> [] -> deploys t = 1%nat)).
  { intros t d Ht Hd. rewrite Ht. cbn. repeat split; try lia; congruence. }
  cbn zeta. unfold main.
  destruct (createKintoneClient _ _ _ _ _ _ _) as [[[client creds]|e]|code err];
    cbn [fst snd].
  - destruct (deployApp client _ revert) as [[]|error].
    + destruct revert; [apply Hquiet; count_steps; [reflexivity|lia]|].
      destruct noWait; [apply Hquiet; count_steps; [reflexivity|lia]|].
      pose proof (run_resources client (VStr appId) None None served) as Hres.
      cbn zeta in Hres. change (budget None) with 30 in Hres.
      change (interval None) with 1000 in Hres.
      destruct (waitForDeploy client (VStr appId) None None served)
        as [[[result|error] served'] t]; cbn [fst snd] in Hres;
        destruct Hres as (Hreq & Hsus & Hserved & Hdelay).
      * destruct (success result); cbn [fst snd]; count_steps; rewrite app_nil_r;
          repeat split; try lia; try discriminate; assumption.
      * destruct (failed_steps JSON_stringify TypeError error) as (Hfw & Hfd & _).
        destruct (failed JSON_stringify TypeError error) as [e t']. cbn [fst snd] in *.
        count_steps. rewrite Hfw, Hfd, app_nil_r.
        repeat split; try lia; try discriminate; assumption.
    + destruct (failed_steps JSON_stringify TypeError error) as (Hfw & Hfd & _).
      destruct (failed JSON_stringify TypeError error) as [e t']. cbn [fst snd] in *.
      apply Hquiet; count_steps; rewrite ?Hfw, ?Hfd; [reflexivity|lia].
  - apply Hquiet; count_steps; [reflexivity|lia].
  - assert (Hmap : forall lines : list string,
              waits (List.map (fun line => Console Stderr [Raw (VStr (js line))]) lines) = []
              /\ deploys (List.map (fun line => Console Stderr [Raw (VStr (js line))]) lines)
                 = 0%nat).
    { induction lines as [|l lines [IH1 IH2]]; split;
        [reflexivity|reflexivity|exact IH1|exact IH2]. }
    destruct (Hmap err) as [H1 H2]. apply Hquiet; [exact H1|lia].
Qed.

End MainFacts.

(** X12 (how the deploy script ends).  [main] returns only a successful
    outcome: [REVERTED] under [--revert], [PROCESSING] under [--no-wait]
    alone, [SUCCESS] after a wait; every exit of the process is with code 1;
    [main] itself throws only when the client library cannot be loaded or
    constructed, or when the error caught is [undefined] or [null].  A wait
    that returns an unsuccessful outcome ([FAIL], [CANCEL], [TIMEOUT]) ends
    the process with exit code 1. *)
Theorem deploy_main_ends fileURLToPath dirname resolve existsSync readFileSync
    importKintoneRestAPIClient importMetaUrl deployApp JSON_stringify TypeError
    appId revert noWait served :
  let run :=
    main fileURLToPath dirname resolve existsSync readFileSync
      importKintoneRestAPIClient importMetaUrl deployApp JSON_stringify TypeError in
  match (run appId revert noWait served).1.1 with
  | Resolved o =>
      success o = true
      /\ status o = VStr (if revert then js "REVERTED"
                         else if noWait then js "PROCESSING" else js "SUCCESS")
  | ProcessExited code => code = 1
  | Unhandled e =>
      createKintoneClient fileURLToPath dirname resolve existsSync readFileSync
        importKintoneRestAPIClient importMetaUrl = Completes (Rejected e)
      \/ exists error, (error = VUndefined \/ error = VNull) /\ e = TypeError error
  end
  /\ (forall client credentials result served' t,
        createKintoneClient fileURLToPath dirname resolve existsSync readFileSync
          importKintoneRestAPIClient importMetaUrl
          = Completes (Fulfilled (client, credentials)) ->
        deployApp client [VObject [(js "app", VStr appId)]] false = Fulfilled tt ->
        waitForDeploy client (VStr appId) None None served
          = (Fulfilled result, served', t) ->
        success result = false ->
        (run appId false false served).1 = (ProcessExited 1, served')).
Proof.
  cbn zeta. split; [apply main_end|].
  intros client credentials result served' t Hclient Hdeploy Hwait Hfail.
  unfold main. rewrite Hclient, Hdeploy, Hwait, Hfail. reflexivity.
Qed.

Lemma deploy_main_ends_witness :
  (sample_main (js "42") false false 0%nat).1 = (ProcessExited 1, 2%nat).
Proof.
  apply (proj2 (deploy_main_ends (fun url => url) sample_dirname sample_parent
                  sample_existsSync (fun _ => Some credentials_file) sample_import
                  (js "/repo/scripts/app-management/deploy/deploy-app.mjs")
                  sample_deployApp (fun v => v) (fun v => v) (js "42") false false 0%nat)
           (scripted [report "PROCESSING"] (report "FAIL"))
           {| domain := js "example.cybozu.com"; username := js "alice";
              password := js "p=w"; baseUrl := js "https://example.cybozu.com" |}
           {| success := false; status := VStr (js "FAIL") |} 2%nat
           [Request [VStr (js "42")] (report "PROCESSING"); Timer 1000;
            Request [VStr (js "42")] (report "FAIL")]).
  - vm_compute. reflexivity.
  - reflexivity.
  - vm_compute. reflexivity.
  - reflexivity.
Defined.

Lemma polling_timer client appId ms k : forall served d,
  In (Timer d) (polling client appId ms served k) -> d = ms.
Proof.
  induction k as [|k IH]; intros served d Hin; [destruct Hin|].
  cbn [polling] in Hin. destruct Hin as [[=] | [[= <-] | Hin]]; [reflexivity|].
  exact (IH _ _ Hin).
Qed.

Lemma journal_timers client appId maxAttempts intervalMs served d :
  In (Timer d) (waitForDeploy client appId maxAttempts intervalMs served).2 ->
  d = interval intervalMs.
Proof.
  destruct (waitForDeploy_cases client appId maxAttempts intervalMs served)
    as [[_ Heq] | (k & _ & _ & _ & Heq)]; rewrite Heq; cbn [snd]; intros Hin.
  - exact (polling_timer _ _ _ _ _ _ Hin).
  - apply in_app_or in Hin as [Hin | [[=] | []]]. exact (polling_timer _ _ _ _ _ _ Hin).
Qed.

(** The waits of [main] are none, or the journal of its one call of the
    waiter with the default budget and interval. *)
Lemma main_waits fileURLToPath dirname resolve existsSync readFileSync
    importKintoneRestAPIClient importMetaUrl deployApp JSON_stringify TypeError
    appId revert noWait served :
  let t := (main fileURLToPath dirname resolve existsSync readFileSync
              importKintoneRestAPIClient importMetaUrl deployApp JSON_stringify TypeError
              appId revert noWait served).2 in
  waits t = []
  \/ exists client, waits t = (waitForDeploy client (VStr appId) None None served).2.
Proof.
  cbn zeta. unfold main.
  destruct (createKintoneClient _ _ _ _ _ _ _) as [[[client creds]|e]|code err].
  - destruct (deployApp client _ revert) as [[]|error].
    + destruct revert; [left; count_steps; reflexivity|].
      destruct noWait; [left; count_steps; reflexivity|].
      right. exists client.
      destruct (waitForDeploy client (VStr appId) None None served)
        as [[[result|error] served'] t].
      * destruct (success result); count_steps; apply app_nil_r.
      * destruct (failed_steps JSON_stringify TypeError error) as (Hfw & _ & _).
        destruct (failed JSON_stringify TypeError error) as [e t']. cbn [fst snd] in *.
        count_steps. rewrite Hfw. apply app_nil_r.
    + destruct (failed_steps JSON_stringify TypeError error) as (Hfw & _ & _).
      destruct (failed JSON_stringify TypeError error) as [e t']. cbn [fst snd] in *.
      left. count_steps. exact Hfw.
  - left. reflexivity.
  - left. cbn [snd]. induction err as [|l err IH]; [reflexivity|exact IH].
Qed.

(** X13 (what the deploy script asks of the remote).  In every run of [main]
    the status is requested at most 30 times, each suspension is of 1000 ms
    (so the delays add up to 1000 ms per suspension), and the remote is
    advanced by exactly the requests made.  Under [--revert] or [--no-wait]
    the status is never requested.  [deployApp] is called at most once, and
    the status is requested only after it has been called. *)
Theorem deploy_main_polling fileURLToPath dirname resolve existsSync readFileSync
    importKintoneRestAPIClient importMetaUrl deployApp JSON_stringify TypeError
    appId revert noWait served :
  let run :=
    main fileURLToPath dirname resolve existsSync readFileSync
      importKintoneRestAPIClient importMetaUrl deployApp JSON_stringify TypeError
      appId revert noWait served in
  (requests (waits run.2) <= 30)%nat
  /\ (suspensions (waits run.2) <= requests (waits run.2))%nat
  /\ delay (waits run.2) = 1000 * Z.of_nat (suspensions (waits run.2))
  /\ run.1.2 = (served + requests (waits run.2))%nat
  /\ (revert || noWait = true -> waits run.2 = [])
  /\ (deploys run.2 <= 1)%nat
  /\ (waits run.2 <> [] -> deploys run.2 = 1%nat)
  /\ (forall d, In (Timer d) (waits run.2) -> d = 1000).
Proof.
  cbn zeta.
  pose proof (main_polling fileURLToPath dirname resolve existsSync readFileSync
                importKintoneRestAPIClient importMetaUrl deployApp JSON_stringify
                TypeError appId revert noWait served) as H.
  cbn zeta in H. destruct H as (H1 & H2 & H3 & H4 & H5 & H6 & H7).
  repeat (split; [assumption|]).
  intros d Hin.
  destruct (main_waits fileURLToPath dirname resolve existsSync readFileSync
              importKintoneRestAPIClient importMetaUrl deployApp JSON_stringify
              TypeError appId revert noWait served) as [Hw | (client & Hw)];
    cbn zeta in Hw; rewrite Hw in Hin; [destruct Hin|].
  exact (journal_timers _ _ _ _ _ _ Hin).
Qed.

Lemma deploy_main_polling_witness :
  waits (sample_main (js "42") true false 0%nat).2 = [].
Proof.
  apply (proj1 (proj2 (proj2 (proj2 (proj2
    (deploy_main_polling (fun url => url) sample_dirname sample_parent sample_existsSync
       (fun _ => Some credentials_file) sample_import
       (js "/repo/scripts/app-management/deploy/deploy-app.mjs")
       sample_deployApp (fun v => v) (fun v => v) (js "42") true false 0%nat)))))).
  reflexivity.
Defined.

Lemma findAppId_first options appId rest :
  (forall o, In o options -> startsWith o (js "--") = true) ->
  startsWith appId (js "--") = false ->
  findAppId (options ++ appId :: rest) = Some appId.
Proof.
  intros Hopts Hid. unfold findAppId.
  induction options as [|o options IH]; cbn [app List.find].
  - rewrite Hid. reflexivity.
  - rewrite (Hopts o (or_introl eq_refl)). cbn [negb].
    apply IH. intros o' Ho'. apply Hopts. right. exact Ho'.
Qed.

Lemma findAppId_none args :
  (forall o, In o args -> startsWith o (js "--") = true) -> findAppId args = None.
Proof.
  intros Hopts. unfold findAppId.
  induction args as [|o args IH]; [reflexivity|]. cbn [List.find].
  rewrite (Hopts o (or_introl eq_refl)). cbn [negb].
  apply IH. intros o' Ho'. apply Hopts. right. exact Ho'.
Qed.

Lemma includes_skips options appId rest flag :
  appId <> flag ->
  includes (options ++ appId :: rest) flag = includes (options ++ rest) flag.
Proof.
  intros Hne. unfold includes. rewrite !existsb_app. cbn [existsb].
  rewrite (bool_decide_eq_false_2 (appId = flag) Hne). reflexivity.
Qed.

(** X14 (arguments of the deploy script).  The app id is the first argument
    that does not start with ["--"], wherever the options stand: options
    before and after it are honoured alike.  When every argument is an
    option, or the first one that is none is the empty string, the script
    prints the usage and ends with exit code 1 without reading the
    credentials or calling the remote. *)
Theorem deploy_app_arguments fileURLToPath dirname resolve existsSync readFileSync
    importKintoneRestAPIClient importMetaUrl deployApp JSON_stringify TypeError
    node script served :
  let run :=
    deploy_app fileURLToPath dirname resolve existsSync readFileSync
      importKintoneRestAPIClient importMetaUrl deployApp JSON_stringify TypeError in
  (forall options appId rest,
     (forall o, In o options -> startsWith o (js "--") = true) ->
     startsWith appId (js "--") = false ->
     run (node :: script :: options ++ appId :: rest) served
     = if bool_decide (appId = []) then (ProcessExited 1, served, usage)
       else
         main fileURLToPath dirname resolve existsSync readFileSync
           importKintoneRestAPIClient importMetaUrl deployApp JSON_stringify TypeError
           appId (includes (options ++ rest) (js "--revert"))
           (includes (options ++ rest) (js "--no-wait")) served)
  /\ (forall options,
        (forall o, In o options -> startsWith o (js "--") = true) ->
        run (node :: script :: options) served = (ProcessExited 1, served, usage)).
Proof.
  cbn zeta. split.
  - intros options appId rest Hopts Hid. unfold deploy_app. cbn zeta.
    change (skipn 2 (node :: script :: options ++ appId :: rest))
      with (options ++ appId :: rest).
    rewrite (findAppId_first options appId rest Hopts Hid). cbn [falsy].
    destruct (bool_decide (appId = [])); [reflexivity|].
    rewrite !includes_skips; [reflexivity| |]; intros ->; discriminate Hid.
  - intros options Hopts. unfold deploy_app. cbn zeta.
    change (skipn 2 (node :: script :: options)) with options.
    rewrite (findAppId_none options Hopts). reflexivity.
Qed.

Lemma deploy_app_arguments_witness :
  deploy_app (fun url => url) sample_dirname sample_parent sample_existsSync
    (fun _ => Some credentials_file) sample_import
    (js "/repo/scripts/app-management/deploy/deploy-app.mjs")
    sample_deployApp (fun v => v) (fun v => v)
    (js "node" :: js "deploy-app.mjs" :: [js "--no-wait"] ++ js "42" :: [js "--revert"])
    0%nat
  = sample_main (js "42") true true 0%nat.
Proof.
  apply (proj1 (deploy_app_arguments (fun url => url) sample_dirname sample_parent
                  sample_existsSync (fun _ => Some credentials_file) sample_import
                  (js "/repo/scripts/app-management/deploy/deploy-app.mjs")
                  sample_deployApp (fun v => v) (fun v => v)
                  (js "node") (js "deploy-app.mjs") 0%nat)
           [js "--no-wait"] (js "42") [js "--revert"]).
  - intros o [<- | []]. reflexivity.
  - reflexivity.
Defined.

Lemma getStatusIcon_classes_witness :
  getStatusIcon (VStr (js "QUEUED")) = [9203%N]
  \/ getStatusIcon (VStr (js "QUEUED")) = [10067%N].
Proof.
  apply (proj1 (proj2 (proj2 (proj2 (proj2
           (getStatusIcon_classes (VStr (js "QUEUED")))))))).
  reflexivity.
Defined.
